(** * ATS integration: vendor-response parsing, time correction and staging

    A shallow embedding of [app/actions/client.py] and
    [app/actions/handlers.py], with the properties of the design
    document stated over it.

    Conventions.
    - A Python call that may raise is a function into [result]; the
      constructor [Raise] carries the exception.
    - A [datetime] is its wall-clock fields, counted in microseconds
      (the resolution of Python's [datetime]), together with an optional
      [tzinfo].  A [timedelta] is a signed number of microseconds.
    - Python dictionaries used as maps are [gmap]s; sets are [gset]s. *)

From Stdlib Require Import ZArith Lia Floats.
From stdpp Require Import base option list sorting strings pretty gmap.

Set Warnings "-register-all".
Local Open Scope Z_scope.
Local Open Scope string_scope.

(** ** Python exceptions and results *)

Inductive exn : Type :=
  | IndexError
  | TypeError
  | ValueError
  | KeyError (key : string)
  | AttributeError
  | ExpatError
  | ParsingInterrupted
  | FileNotFoundError
  | ValidationError
  | HTTPError
  | Exception (message : string)
  | ConfigurationNotFound (message : string)
  | PullObservationsBadXMLException (status_code : Z) (message : string) (error : exn).

Inductive result (A : Type) : Type :=
  | Ok (a : A)
  | Raise (e : exn).
Arguments Ok {A} a.
Arguments Raise {A} e.

#[global] Instance result_ret : MRet result := fun A a => Ok a.
#[global] Instance result_bind : MBind result := fun A B k r =>
  match r with
  | Ok a => k a
  | Raise e => Raise e
  end.

(** ** Python's [datetime] module *)

Module Datetime.

(** [timedelta]: a signed duration in microseconds. *)
Definition timedelta := Z.

Definition microseconds_per_hour : Z := 3600000000.
Definition microseconds_per_day : Z := 86400000000.

(** [timedelta(hours=h)] *)
Definition hours (h : Z) : timedelta := h * microseconds_per_hour.

(** [td.days]: a timedelta is normalised so that its seconds and
    microseconds are non-negative; [days] is therefore the floor of
    the duration divided by one day ([timedelta(hours=-1).days == -1]). *)
Definition days (td : timedelta) : Z := td / microseconds_per_day.

(** [timezone(offset)]: a fixed-offset zone.  The constructor raises
    [ValueError] unless the offset lies strictly between
    [-timedelta(hours=24)] and [timedelta(hours=24)]. *)
Record timezone := { utcoffset : timedelta }.

Definition mk_timezone (offset : timedelta) : result timezone :=
  if bool_decide (- hours 24 < offset < hours 24)
  then Ok {| utcoffset := offset |}
  else Raise ValueError.

Definition utc : timezone := {| utcoffset := 0 |}.

(** A [datetime]: wall-clock fields (microseconds since
    0001-01-01T00:00:00) and [tzinfo] ([None] for a naive value). *)
Record datetime := { wall : Z; tzinfo : option timezone }.

Definition naive (w : Z) : datetime := {| wall := w; tzinfo := None |}.

(** [dt.replace(tzinfo=tz)]: same clock fields, new [tzinfo]. *)
Definition replace_tzinfo (dt : datetime) (tz : timezone) : datetime :=
  {| wall := wall dt; tzinfo := Some tz |}.

#[global] Instance timezone_eq_dec : EqDecision timezone.
Proof. solve_decision. Defined.
#[global] Instance datetime_eq_dec : EqDecision datetime.
Proof. solve_decision. Defined.

End Datetime.

(** ** [client.py] *)

Module Client.
Import Datetime.

(** *** [closest_transmission]

    The function reads one attribute of each transmission, [DateSent],
    compares these values with [>=], subtracts them and reads [.days]
    of the difference.  This section is the function on objects [T]
    that carry a [DateSent] attribute, the read being the function
    [DateSent]; the dates handed to one call are mutually comparable
    datetimes, represented by their position on the time line in
    microseconds.  On objects that do not carry the attribute the read
    raises: [closest_transmission_call] below is the call with the read
    as it is, and the records of [TransmissionsResponse] are such
    objects (their field is [date_sent]; [DateSent] is the alias of the
    input key only). *)

Section closest_transmission.
Context {T : Type} (DateSent : T -> Z).

(** [sorted(...)], a stable merge sort; on a list of dates the
    result is the ascending rearrangement. *)
Definition sorted (dates : list Z) : list Z := merge_sort Z.le dates.

(** [l[-1]] *)
Definition last_item (l : list Z) : result Z :=
  match last l with
  | Some x => Ok x
  | None => Raise IndexError
  end.

(** [[t for t in transmissions if t.DateSent == date][0]] *)
Definition first_dated (transmissions : list T) (date : Z) : result T :=
  match filter (fun t => DateSent t = date) transmissions with
  | t :: _ => Ok t
  | [] => Raise IndexError
  end.

(** The [for date in sorted_list] loop; [None] when the loop runs
    to its end without returning. *)
Fixpoint scan (transmissions : list T) (test_date previous_date : Z)
    (sorted_list : list Z) : option (result T) :=
  match sorted_list with
  | [] => None
  | date :: rest =>
      if bool_decide (date >= test_date) then
        if bool_decide (Z.abs (days (date - test_date))
                        < Z.abs (days (previous_date - test_date)))
        then Some (first_dated transmissions date)
        else Some (first_dated transmissions previous_date)
      else scan transmissions test_date date rest
  end.

Definition closest_transmission (transmissions : list T) (test_date : Z)
    : result T :=
  let sorted_list := sorted (DateSent <$> transmissions) in
  previous_date ← last_item sorted_list;
  match scan transmissions test_date previous_date sorted_list with
  | Some r => r
  | None => m ← last_item sorted_list; first_dated transmissions m
  end.

(** The lookup as the design document words it: the same scan, the
    two candidates compared by the absolute value of their distance
    to the target. *)
Fixpoint findNearest_scan (transmissions : list T)
    (targetDate previousDate : Z) (dates : list Z) : option (result T) :=
  match dates with
  | [] => None
  | d :: rest =>
      if bool_decide (targetDate <= d) then
        if bool_decide (Z.abs (d - targetDate) < Z.abs (previousDate - targetDate))
        then Some (first_dated transmissions d)
        else Some (first_dated transmissions previousDate)
      else findNearest_scan transmissions targetDate d rest
  end.

Definition findNearestTransmission_spec (transmissions : list T)
    (targetDate : Z) : result T :=
  let dates := sorted (DateSent <$> transmissions) in
  maxDate ← last_item dates;
  match findNearest_scan transmissions targetDate maxDate dates with
  | Some r => r
  | None => first_dated transmissions maxDate
  end.

(** Distance as the code measures it: [abs((a - b).days)]. *)
Definition day_distance (a b : Z) : Z := Z.abs (days (a - b)).


(** The dates that are candidates for a target. *)
Definition dates_at_or_after (target : Z) (dates : list Z) : list Z :=
  filter (fun d => target <= d) dates.
Definition dates_before (target : Z) (dates : list Z) : list Z :=
  filter (fun d => d < target) dates.

(** The choice made once the first date at or after the target is
    reached, the other candidate being [previous]. *)
Definition choose (transmissions : list T) (test_date d previous : Z) : result T :=
  if bool_decide (day_distance d test_date < day_distance previous test_date)
  then first_dated transmissions d
  else first_dated transmissions previous.

Definition is_smallest_at_or_after (transmissions : list T) (target d : Z) : Prop :=
  d ∈ DateSent <$> transmissions /\ target <= d /\
  forall d', d' ∈ DateSent <$> transmissions -> target <= d' -> d <= d'.

Definition is_largest_before (transmissions : list T) (target p : Z) : Prop :=
  p ∈ DateSent <$> transmissions /\ p < target /\
  forall p', p' ∈ DateSent <$> transmissions -> p' < target -> p' <= p.

Definition is_min_date (transmissions : list T) (m : Z) : Prop :=
  m ∈ DateSent <$> transmissions /\
  forall d, d ∈ DateSent <$> transmissions -> m <= d.

Definition is_max_date (transmissions : list T) (m : Z) : Prop :=
  m ∈ DateSent <$> transmissions /\
  forall d, d ∈ DateSent <$> transmissions -> d <= m.

End closest_transmission.

(** *** Values produced by [xmltodict.parse]

    An element becomes a dictionary of its attributes and children, a
    repeated child a list, a text-only element a string and an empty
    element [None]. *)

Inductive xml_value : Type :=
  | XNone
  | XStr (s : string)
  | XDict (items : list (string * xml_value))
  | XList (items : list xml_value).

Fixpoint dict_lookup (key : string) (items : list (string * xml_value))
    : option xml_value :=
  match items with
  | [] => None
  | (k, v) :: rest => if bool_decide (k = key) then Some v else dict_lookup key rest
  end.

(** [d[key]] on the dictionary [xmltodict.parse] returns. *)
Definition getitem (d : list (string * xml_value)) (key : string) : result xml_value :=
  match dict_lookup key d with
  | Some v => Ok v
  | None => Raise (KeyError key)
  end.

(** [v.get(key, default)]: only a dictionary has [get]. *)
Definition get (v : xml_value) (key : string) (default : xml_value) : result xml_value :=
  match v with
  | XDict items => Ok (from_option id default (dict_lookup key items))
  | _ => Raise AttributeError
  end.

(** Truth value of [if v:]. *)
Definition truthy (v : xml_value) : bool :=
  match v with
  | XNone => false
  | XStr s => negb (bool_decide (s = ""))
  | XDict items => negb (bool_decide (items = []))
  | XList items => negb (bool_decide (items = []))
  end.

(** *** The pydantic models *)

Record DataResponse := {
  ats_serial_num : string;
  longitude : option float;
  latitude : option float;
  date_year_and_julian : datetime;
  num_sats : option string;
  hdop : option string;
  fix_time : option string;
  dimension : option string;
  activity : option string;
  temperature : option string;
  mortality : option bool;
  low_batt_voltage : option bool
}.

Record TransmissionsResponse := {
  date_sent : datetime;
  collar_serial_num : string;
  number_fixes : option Z;
  batt_voltage : option float;
  t_mortality : option string;
  break_off : option string;
  sat_errors : option string;
  year_base : option string;
  day_base : option string;
  gmt_offset : option Z;
  t_low_batt_voltage : option bool
}.

(** Validation of one field, as pydantic (v1) runs it.  The value is
    looked up under the alias and, with
    [allow_population_by_field_name], under the field name.  The
    conversions of a string to a float, an integer, a boolean and a
    datetime are pydantic's own and are taken as given. *)

Section validation.
Variable float_of_str : string -> option float.
Variable int_of_str : string -> option Z.
Variable bool_of_str : string -> option bool.
Variable datetime_of_str : string -> option datetime.

Inductive field_input : Type :=
  | Missing
  | Present (v : xml_value).

Definition get_field (alias name : string) (d : list (string * xml_value))
    : field_input :=
  match dict_lookup alias d with
  | Some v => Present v
  | None =>
      match dict_lookup name d with
      | Some v => Present v
      | None => Missing
      end
  end.

(** A field declared with [Field(...)]: it must be present and not
    [None]. *)
Definition required {A} (validate : xml_value -> option A) (f : field_input)
    : option A :=
  match f with
  | Missing => None
  | Present XNone => None
  | Present v => validate v
  end.

(** A field declared with [Field(None, ...)]: absent or [None] gives
    [None], any other value is validated. *)
Definition optional {A} (validate : xml_value -> option A) (f : field_input)
    : option (option A) :=
  match f with
  | Missing => Some None
  | Present XNone => Some None
  | Present v => Some <$> validate v
  end.

Definition str_validator (v : xml_value) : option string :=
  match v with XStr s => Some s | _ => None end.
Definition float_validator (v : xml_value) : option float :=
  match v with XStr s => float_of_str s | _ => None end.
Definition int_validator (v : xml_value) : option Z :=
  match v with XStr s => int_of_str s | _ => None end.
Definition bool_validator (v : xml_value) : option bool :=
  match v with XStr s => bool_of_str s | _ => None end.
Definition datetime_validator (v : xml_value) : option datetime :=
  match v with XStr s => datetime_of_str s | _ => None end.

(** The [ge=..., le=...] constraints. *)
Definition ge_le (lo hi : float) (x : float) : option float :=
  if PrimFloat.leb lo x && PrimFloat.leb x hi then Some x else None.

(** [DataResponse] built from one row; [None] stands for a
    validation error on the row. *)
Definition DataResponse_validate (row : xml_value) : option DataResponse :=
  match row with
  | XDict d =>
      serial ← required str_validator (get_field "AtsSerialNum" "ats_serial_num" d);
      lon ← optional (fun v => float_validator v ≫= ge_le (-180)%float 360%float)
              (get_field "Longitude" "longitude" d);
      lat ← optional (fun v => float_validator v ≫= ge_le (-90)%float 90%float)
              (get_field "Latitude" "latitude" d);
      date ← required datetime_validator
              (get_field "DateYearAndJulian" "date_year_and_julian" d);
      sats ← optional str_validator (get_field "NumSats" "num_sats" d);
      hd ← optional str_validator (get_field "Hdop" "hdop" d);
      fix_t ← optional str_validator (get_field "FixTime" "fix_time" d);
      dim ← optional str_validator (get_field "Dimension" "dimension" d);
      act ← optional str_validator (get_field "Activity" "activity" d);
      temp ← optional str_validator (get_field "Temperature" "temperature" d);
      mort ← optional bool_validator (get_field "Mortality" "mortality" d);
      low ← optional bool_validator (get_field "LowBattVoltage" "low_batt_voltage" d);
      Some {| ats_serial_num := serial; longitude := lon; latitude := lat;
              date_year_and_julian := date; num_sats := sats; hdop := hd;
              fix_time := fix_t; dimension := dim; activity := act;
              temperature := temp; mortality := mort; low_batt_voltage := low |}
  | _ => None
  end.

Definition TransmissionsResponse_validate (row : xml_value)
    : option TransmissionsResponse :=
  match row with
  | XDict d =>
      date ← required datetime_validator (get_field "DateSent" "date_sent" d);
      serial ← required str_validator
                (get_field "CollarSerialNum" "collar_serial_num" d);
      fixes ← optional int_validator (get_field "NumberFixes" "number_fixes" d);
      volt ← optional float_validator (get_field "BattVoltage" "batt_voltage" d);
      mort ← optional str_validator (get_field "Mortality" "mortality" d);
      brk ← optional str_validator (get_field "BreakOff" "break_off" d);
      sat ← optional str_validator (get_field "SatErrors" "sat_errors" d);
      yb ← optional str_validator (get_field "YearBase" "year_base" d);
      db ← optional str_validator (get_field "DayBase" "day_base" d);
      off ← optional int_validator (get_field "GmtOffset" "gmt_offset" d);
      low ← optional bool_validator (get_field "LowBattVoltage" "low_batt_voltage" d);
      Some {| date_sent := date; collar_serial_num := serial; number_fixes := fixes;
              batt_voltage := volt; t_mortality := mort; break_off := brk;
              sat_errors := sat; year_base := yb; day_base := db;
              gmt_offset := off; t_low_batt_voltage := low |}
  | _ => None
  end.

(** The [pre=True] validators [validate_vehicles] and
    [validate_transmissions]: a value that is not a list becomes the
    empty list. *)
Definition validate_vehicles (val : xml_value) : list xml_value :=
  match val with XList rows => rows | _ => [] end.
Definition validate_transmissions (val : xml_value) : list xml_value :=
  match val with XList rows => rows | _ => [] end.

(** [parse_obj] of the two wrapper models: every row is validated,
    and one failing row fails the whole object. *)
Definition PullObservationsDataResponse_parse_obj (vehicles : xml_value)
    : result (list DataResponse) :=
  match mapM DataResponse_validate (validate_vehicles vehicles) with
  | Some rows => Ok rows
  | None => Raise ValidationError
  end.

Definition PullObservationsTransmissionsResponse_parse_obj
    (transmissions : xml_value) : result (list TransmissionsResponse) :=
  match mapM TransmissionsResponse_validate (validate_transmissions transmissions) with
  | Some rows => Ok rows
  | None => Raise ValidationError
  end.
End validation.
(** *** Rows that fail field validation

    The three defects the design document names, as they show in a row
    of the location response and of the transmissions response. *)

Section defects.
Variable float_of_str : string -> option float.
Variable datetime_of_str : string -> option datetime.

Inductive data_row_defect (d : list (string * xml_value)) : Prop :=
  | missing_device_identifier :
      get_field "AtsSerialNum" "ats_serial_num" d = Missing -> data_row_defect d
  | missing_timestamp :
      get_field "DateYearAndJulian" "date_year_and_julian" d = Missing ->
      data_row_defect d
  | unparseable_timestamp s :
      get_field "DateYearAndJulian" "date_year_and_julian" d = Present (XStr s) ->
      datetime_of_str s = None -> data_row_defect d
  | longitude_out_of_range s x :
      get_field "Longitude" "longitude" d = Present (XStr s) ->
      float_of_str s = Some x ->
      PrimFloat.leb (-180)%float x && PrimFloat.leb x 360%float = false ->
      data_row_defect d
  | latitude_out_of_range s x :
      get_field "Latitude" "latitude" d = Present (XStr s) ->
      float_of_str s = Some x ->
      PrimFloat.leb (-90)%float x && PrimFloat.leb x 90%float = false ->
      data_row_defect d.

Inductive transmission_row_defect (d : list (string * xml_value)) : Prop :=
  | missing_collar_identifier :
      get_field "CollarSerialNum" "collar_serial_num" d = Missing ->
      transmission_row_defect d
  | missing_date_sent :
      get_field "DateSent" "date_sent" d = Missing -> transmission_row_defect d
  | unparseable_date_sent s :
      get_field "DateSent" "date_sent" d = Present (XStr s) ->
      datetime_of_str s = None -> transmission_row_defect d.
End defects.

(** *** The two endpoint readers

    The outcome of [session.get] followed by [raise_for_status] is an
    input: a transport failure and an error status both raise an
    [httpx.HTTPError]; otherwise the body text is parsed.
    [xmltodict.parse] is taken as given.  The [logger] calls are left
    out: they change no result. *)

Inductive http_outcome : Type :=
  | TransportFailure
  | ErrorStatus
  | Success (text : string).

(** What [get_transmissions_endpoint_response] returns: the literal
    [{}] of its no-rows branch, or the list of validated rows. *)
Inductive transmissions_value : Type :=
  | EmptyDict
  | RowList (rows : list TransmissionsResponse).

(** The records obtained by iterating over the returned value. *)
Definition records (v : transmissions_value) : list TransmissionsResponse :=
  match v with
  | EmptyDict => []
  | RowList rows => rows
  end.

(** [except (xmltodict.ParsingInterrupted, ExpatError)] *)
Definition is_parsing_error (e : exn) : bool :=
  match e with
  | ExpatError | ParsingInterrupted => true
  | _ => false
  end.

(** The malformed-response error. *)
Definition raises_bad_xml {A} (r : result A) : bool :=
  match r with
  | Raise (PullObservationsBadXMLException _ _ _) => true
  | _ => false
  end.

Definition bad_xml (message : string) (error : exn) : exn :=
  PullObservationsBadXMLException 422 message error.

(** [response_per_device]: one entry per serial number of the set
    [serial_nums], holding the points of that device in response
    order.  Each key is assigned once, so the order in which the set is
    traversed does not show in the resulting map. *)
Definition group_by_serial (vehicles : list DataResponse)
    : gmap string (list DataResponse) :=
  foldr (fun serial_num response_per_device =>
           <[serial_num := filter (fun point => serial_num = ats_serial_num point) vehicles]>
             response_per_device)
        ∅ (remove_dups (ats_serial_num <$> vehicles)).

Section endpoints.
Variable xmltodict_parse : string -> result (list (string * xml_value)).
Variable float_of_str : string -> option float.
Variable int_of_str : string -> option Z.
Variable bool_of_str : string -> option bool.
Variable datetime_of_str : string -> option datetime.

(** The [try] around the two chained lookups: only [KeyError] is
    caught there. *)
Definition new_data_set (parsed_xml : list (string * xml_value)) : result xml_value :=
  data_set ← getitem parsed_xml "DataSet";
  xml_tag ← get data_set "diffgr:diffgram" (XDict []);
  get xml_tag "NewDataSet" (XDict []).

Definition get_data_endpoint_response (integration_id username : string)
    (http : http_outcome) : result (gmap string (list DataResponse)) :=
  match http with
  | TransportFailure | ErrorStatus => Raise HTTPError
  | Success text =>
      match xmltodict_parse text with
      | Raise e =>
          if is_parsing_error e then
            let msg := "Error while parsing XML from 'data' endpoint. Integration ID: "
                       +:+ integration_id +:+ " Username: " +:+ username in
            Raise (bad_xml msg e)
          else Raise e
      | Ok parsed_xml =>
          match new_data_set parsed_xml with
          | Raise (KeyError k) =>
              let msg := "Error while parsing 'data' response from XML. Integration ID: "
                         +:+ integration_id +:+ " Username: " +:+ username in
              Raise (bad_xml msg (KeyError k))
          | Raise e => Raise e
          | Ok data =>
              if truthy data then
                match
                  table ← get data "Table" (XList []);
                  PullObservationsDataResponse_parse_obj
                    float_of_str bool_of_str datetime_of_str table
                with
                | Raise ValidationError =>
                    let msg := "Error while parsing 'PullObservationsDataResponse' response from XML (data). Integration ID: "
                               +:+ integration_id +:+ " Username: " +:+ username in
                    Raise (bad_xml msg ValidationError)
                | Raise e => Raise e
                | Ok vehicles => Ok (group_by_serial vehicles)
                end
              else Ok ∅
          end
      end
  end.

Definition get_transmissions_endpoint_response (integration_id username : string)
    (http : http_outcome) : result transmissions_value :=
  match http with
  | TransportFailure | ErrorStatus => Raise HTTPError
  | Success text =>
      match xmltodict_parse text with
      | Raise e =>
          if is_parsing_error e then
            let msg := "Error while parsing XML from 'transmissions' endpoint. Integration ID: "
                       +:+ integration_id +:+ " Username: " +:+ username in
            Raise (bad_xml msg e)
          else Raise e
      | Ok parsed_xml =>
          match new_data_set parsed_xml with
          | Raise (KeyError k) =>
              let msg := "Error while parsing 'transmissions' response from XML. Integration ID: "
                         +:+ integration_id +:+ " Username: " +:+ username in
              Raise (bad_xml msg (KeyError k))
          | Raise e => Raise e
          | Ok transmissions =>
              if truthy transmissions then
                match
                  table ← get transmissions "Table" (XList []);
                  PullObservationsTransmissionsResponse_parse_obj
                    float_of_str int_of_str bool_of_str datetime_of_str table
                with
                | Raise ValidationError =>
                    let msg := "Error while parsing 'PullObservationsTransmissionsResponse' response from XML (data). Integration ID: "
                               +:+ integration_id +:+ " Username: " +:+ username in
                    Raise (bad_xml msg ValidationError)
                | Raise e => Raise e
                | Ok rows => Ok (RowList rows)
                end
              else Ok EmptyDict
          end
      end
  end.
End endpoints.

(** *** Attribute reads and the call of [closest_transmission]

    The attributes of a pydantic model instance are its fields, under
    their names; an alias names the key of the input and is no
    attribute.  Any other name raises [AttributeError]. *)

Inductive attribute : Type :=
  | ADatetime (d : datetime)
  | AStr (s : string)
  | AInt (z : Z)
  | AFloat (x : float)
  | ABool (b : bool)
  | ANone.

Definition attribute_of {A} (some : A -> attribute) (value : option A) : attribute :=
  match value with
  | Some a => some a
  | None => ANone
  end.

Definition TransmissionsResponse_getattr (t : TransmissionsResponse) (name : string)
    : result attribute :=
  if bool_decide (name = "date_sent") then Ok (ADatetime (date_sent t))
  else if bool_decide (name = "collar_serial_num") then Ok (AStr (collar_serial_num t))
  else if bool_decide (name = "number_fixes") then Ok (attribute_of AInt (number_fixes t))
  else if bool_decide (name = "batt_voltage") then Ok (attribute_of AFloat (batt_voltage t))
  else if bool_decide (name = "mortality") then Ok (attribute_of AStr (t_mortality t))
  else if bool_decide (name = "break_off") then Ok (attribute_of AStr (break_off t))
  else if bool_decide (name = "sat_errors") then Ok (attribute_of AStr (sat_errors t))
  else if bool_decide (name = "year_base") then Ok (attribute_of AStr (year_base t))
  else if bool_decide (name = "day_base") then Ok (attribute_of AStr (day_base t))
  else if bool_decide (name = "gmt_offset") then Ok (attribute_of AInt (gmt_offset t))
  else if bool_decide (name = "low_batt_voltage")
       then Ok (attribute_of ABool (t_low_batt_voltage t))
  else Raise AttributeError.

(** [t.DateSent] on a record of [TransmissionsResponse], as the date
    [closest_transmission] compares. *)
Definition TransmissionsResponse_DateSent (t : TransmissionsResponse) : result Z :=
  match TransmissionsResponse_getattr t "DateSent" with
  | Ok (ADatetime d) => Ok (wall d)
  | Ok _ => Raise TypeError
  | Raise e => Raise e
  end.

(** [[t.DateSent for t in transmissions]] with the read as it is: the
    attributes are read in input order and the first read that raises
    ends the call.  Each transmission is kept with the date read. *)
Fixpoint read_DateSent {T} (getattr_DateSent : T -> result Z) (transmissions : list T)
    : result (list (T * Z)) :=
  match transmissions with
  | [] => Ok []
  | t :: rest =>
      match getattr_DateSent t with
      | Raise e => Raise e
      | Ok d =>
          match read_DateSent getattr_DateSent rest with
          | Raise e => Raise e
          | Ok dated => Ok ((t, d) :: dated)
          end
      end
  end.

(** The call [closest_transmission(transmissions, test_date)] on any
    objects.  Once every read of the first comprehension has
    succeeded, the later comprehensions read the same attribute of the
    same objects and get the same dates: the rest of the call is
    [closest_transmission] on the transmissions with the dates read. *)
Definition closest_transmission_call {T} (getattr_DateSent : T -> result Z)
    (transmissions : list T) (test_date : Z) : result T :=
  match read_DateSent getattr_DateSent transmissions with
  | Raise e => Raise e
  | Ok dated =>
      match closest_transmission snd dated test_date with
      | Ok (t, _) => Ok t
      | Raise e => Raise e
      end
  end.

(** A value that has no [get]: anything but a dictionary. *)
Definition not_a_dict (v : xml_value) : bool :=
  match v with XDict _ => false | _ => true end.

End Client.

(** ** [handlers.py] *)

Module Handlers.
Import Datetime Client.

Definition PENDING_FILES : string := "ats_pending_files".
Definition PROCESSED_FILES : string := "ats_processed_files".

Inductive FileStatus : Type := PENDING | PROCESSED.

Definition FileStatus_value (s : FileStatus) : string :=
  match s with
  | PENDING => "pending"
  | PROCESSED => "processed"
  end.

(** *** Logging

    A record written through [logger]; [needs_attention] is the flag of
    the [extra] dictionary. *)

Inductive levelname : Type := INFO | WARNING | ERROR.

Record log_record := {
  level : levelname;
  log_message : string;
  needs_attention : bool
}.

(** *** [extract_gmt_offsets] *)

(** [accumulator.setdefault(key, default)]: a key already present keeps
    its value, whatever that value is. *)
Definition setdefault (key : string) (default : option Z)
    (accumulator : gmap string (option Z)) : gmap string (option Z) :=
  match accumulator !! key with
  | Some _ => accumulator
  | None => <[key := default]> accumulator
  end.

(** The value of [gmt_offset] is an [int] or [None]; the map keeps
    whichever the transmission carries. *)
Definition extract_gmt_offsets (transmissions : list TransmissionsResponse)
    (integration_id : string) : list log_record * gmap string (option Z) :=
  match transmissions with
  | _ :: _ =>
      ([], foldl (fun accumulator item =>
                    setdefault (collar_serial_num item) (gmt_offset item) accumulator)
                 ∅ transmissions)
  | [] =>
      ([ {| level := WARNING;
            log_message := "No transmissions were pulled for integration ID: "
                           +:+ integration_id +:+ ".";
            needs_attention := false |};
         {| level := WARNING;
            log_message := "-- Setting GMT offset to 0 for devices in integration ID: "
                           +:+ integration_id +:+ ".";
            needs_attention := false |} ],
       ∅)
  end.

(** [gmt_offsets.get(serial_num, 0)] *)
Definition get_offset (gmt_offsets : gmap string (option Z)) (serial_num : string)
    : option Z :=
  from_option id (Some 0) (gmt_offsets !! serial_num).

(** The first transmission of a device, in input order. *)
Definition first_transmission_of (serial_num : string)
    (transmissions : list TransmissionsResponse) : option TransmissionsResponse :=
  head (filter (fun item => collar_serial_num item = serial_num) transmissions).

(** *** [filter_and_transform] *)

(** Values held by a [DataResponse] field. *)
Inductive py_value : Type :=
  | PStr (s : string)
  | PBool (b : bool)
  | PFloat (x : float)
  | PDatetime (d : datetime).

Record location := { lat : option float; lon : option float }.

Record observation := {
  source : string;
  source_name : string;
  type : string;
  recorded_at : datetime;
  location_of : location;
  additional : list (string * py_value)
}.

(** [vehicle.dict()]: the fields in declaration order; [None] is a
    field whose value is [None]. *)
Definition DataResponse_dict (vehicle : DataResponse) : list (string * option py_value) :=
  [ ("ats_serial_num", Some (PStr (ats_serial_num vehicle)));
    ("longitude", PFloat <$> longitude vehicle);
    ("latitude", PFloat <$> latitude vehicle);
    ("date_year_and_julian", Some (PDatetime (date_year_and_julian vehicle)));
    ("num_sats", PStr <$> num_sats vehicle);
    ("hdop", PStr <$> hdop vehicle);
    ("fix_time", PStr <$> fix_time vehicle);
    ("dimension", PStr <$> dimension vehicle);
    ("activity", PStr <$> activity vehicle);
    ("temperature", PStr <$> temperature vehicle);
    ("mortality", PBool <$> mortality vehicle);
    ("low_batt_voltage", PBool <$> low_batt_voltage vehicle) ].

Definition main_data : list string :=
  ["ats_serial_num"; "date_year_and_julian"; "latitude"; "longitude"].

(** [vehicle.date_year_and_julian = ...] *)
Definition set_date_year_and_julian (vehicle : DataResponse) (d : datetime) : DataResponse :=
  {| ats_serial_num := ats_serial_num vehicle; longitude := longitude vehicle;
     latitude := latitude vehicle; date_year_and_julian := d;
     num_sats := num_sats vehicle; hdop := hdop vehicle; fix_time := fix_time vehicle;
     dimension := dimension vehicle; activity := activity vehicle;
     temperature := temperature vehicle; mortality := mortality vehicle;
     low_batt_voltage := low_batt_voltage vehicle |}.

(** One turn of the [for vehicle in vehicles] loop. *)
Definition transform_vehicle (gmt_offset : Z) (vehicle : DataResponse) : result observation :=
  let time_delta := hours gmt_offset in
  timezone_object ← mk_timezone time_delta;
  let date_year_and_julian_with_tz :=
    replace_tzinfo (date_year_and_julian vehicle) timezone_object in
  let vehicle := set_date_year_and_julian vehicle date_year_and_julian_with_tz in
  Ok {| source := ats_serial_num vehicle;
        source_name := ats_serial_num vehicle;
        type := "tracking-device";
        recorded_at := date_year_and_julian vehicle;
        location_of := {| lat := latitude vehicle; lon := longitude vehicle |};
        additional :=
          omap (fun '(key, value) =>
                  if bool_decide (key ∈ main_data) then None else (fun v => (key, v)) <$> value)
               (DataResponse_dict vehicle) |}.

Fixpoint transform_loop (gmt_offset : Z) (vehicles : list DataResponse)
    : result (list observation) :=
  match vehicles with
  | [] => Ok []
  | vehicle :: rest =>
      data ← transform_vehicle gmt_offset vehicle;
      transformed_data ← transform_loop gmt_offset rest;
      Ok (data :: transformed_data)
  end.

(** The observation of a vehicle whose timestamp is read in the zone
    [tz]: the clock fields of the record, [tzinfo] set to [tz]; the
    optional vendor fields that are not [None] go to [additional]. *)
Definition observation_in (tz : timezone) (vehicle : DataResponse) : observation :=
  {| source := ats_serial_num vehicle;
     source_name := ats_serial_num vehicle;
     type := "tracking-device";
     recorded_at := replace_tzinfo (date_year_and_julian vehicle) tz;
     location_of := {| lat := latitude vehicle; lon := longitude vehicle |};
     additional :=
       omap (fun '(key, value) => (fun v => (key, v)) <$> value)
            [ ("num_sats", PStr <$> num_sats vehicle);
              ("hdop", PStr <$> hdop vehicle);
              ("fix_time", PStr <$> fix_time vehicle);
              ("dimension", PStr <$> dimension vehicle);
              ("activity", PStr <$> activity vehicle);
              ("temperature", PStr <$> temperature vehicle);
              ("mortality", PBool <$> mortality vehicle);
              ("low_batt_voltage", PBool <$> low_batt_voltage vehicle) ] |}.

(** [str(gmt_offset)] inside the f-string. *)
Definition str_of_int (z : Z) : string := pretty z.

Definition invalid_offset_message (serial_num : string) (gmt_offset : Z) : string :=
  "GMT offset invalid for device '" +:+ serial_num +:+ "' value '"
  +:+ str_of_int gmt_offset +:+ "'".

(** The records logged by one call, and its result.  The guard
    [abs(gmt_offset) > 24] comes first: [abs(None)] raises [TypeError]
    before anything else happens. *)
Definition filter_and_transform (serial_num : string) (vehicles : list DataResponse)
    (gmt_offset : option Z) (integration_id action_id : string)
    : list log_record * result (list observation) :=
  match gmt_offset with
  | None => ([], Raise TypeError)
  | Some offset =>
      if bool_decide (Z.abs offset > 24) then
        ([ {| level := ERROR;
              log_message := invalid_offset_message serial_num offset;
              needs_attention := true |} ],
         transform_loop 0 vehicles)
      else ([], transform_loop offset vehicles)
  end.

(** *** [action_pull_observations]

    The action runs against the local file system, the blob store
    ([file_storage]) and the membership store ([state_manager]); an
    action is a function of that world returning the new world and a
    result. *)

Record blob := {
  content : string;
  metadata : list (string * string)
}.

Record world := {
  tmp_files : gmap string string;
  blobs : gmap (string * string) blob;
  groups : gmap string (gset string)
}.

Definition action (A : Type) : Type := world -> world * result A.

#[global] Instance action_ret : MRet action := fun A a w => (w, Ok a).
#[global] Instance action_bind : MBind action := fun A B k m w =>
  match m w with
  | (w', Ok a) => k a w'
  | (w', Raise e) => (w', Raise e)
  end.

Definition lift {A} (r : result A) : action A := fun w => (w, r).

(** [async with aiofiles.open(path, "w") as f: await f.write(text)] *)
Definition write_file (path text : string) : action unit := fun w =>
  ({| tmp_files := <[path := text]> (tmp_files w); blobs := blobs w; groups := groups w |},
   Ok ()).

(** Modelled from the spec: [CloudFileStorage.upload_file], the
    durable blob storage collaborator
    [upload(integrationId, localPayload, destinationName, metadata)].
    The payload read from the local path is stored under the
    destination name of the integration, with the metadata. *)
Definition upload_file (integration_id local_file_path destination_blob_name : string)
    (meta : list (string * string)) : action unit := fun w =>
  match tmp_files w !! local_file_path with
  | Some text =>
      ({| tmp_files := tmp_files w;
          blobs := <[(integration_id, destination_blob_name) :=
                       {| content := text; metadata := meta |}]> (blobs w);
          groups := groups w |},
       Ok ())
  | None => (w, Raise FileNotFoundError)
  end.

(** Modelled from the spec: [IntegrationStateManager.group_add], the
    group-membership store's [add(group, values)]. *)
Definition group_add (group_name : string) (values : list string) : action unit := fun w =>
  ({| tmp_files := tmp_files w; blobs := blobs w;
      groups := <[group_name := groups w !!! group_name ∪ list_to_set values]> (groups w) |},
   Ok ()).

Definition group_ismember (group_name value : string) (w : world) : bool :=
  bool_decide (value ∈ groups w !!! group_name).

(** The integration and its two configurations.
    [find_config_for_action] returns nothing when the integration has
    no configuration for the action. *)
Record AuthenticateConfig := { username : string; password : string }.
Record PullObservationsConfig := { data_endpoint : string; transmissions_endpoint : string }.
Record Integration := {
  id : string;
  auth_configuration : option AuthenticateConfig;
  pull_configuration : option PullObservationsConfig
}.

Definition missing_settings_message (integration : Integration) : string :=
  "Authentication settings for integration " +:+ id integration
  +:+ " are missing. Please fix the integration setup in the portal.".

Definition get_auth_config (integration : Integration) : result AuthenticateConfig :=
  match auth_configuration integration with
  | Some auth_config => Ok auth_config
  | None => Raise (ConfigurationNotFound (missing_settings_message integration))
  end.

Definition get_pull_config (integration : Integration) : result PullObservationsConfig :=
  match pull_configuration integration with
  | Some pull_config => Ok pull_config
  | None => Raise (ConfigurationNotFound (missing_settings_message integration))
  end.

(** What one attempt meets outside the program: the outcome of the
    two fetches of [app.actions.ats_client] (the raw XML text, or the
    exception raised) and the clock reading formatted by
    [strftime("%Y%m%d%H%M%S%f")]. *)
Record attempt_env := {
  transmissions_fetch : result string;
  now : string;
  data_points_fetch : result string
}.

(** The body of [with attempt:]. *)
Definition pull_attempt (integration : Integration) (env : attempt_env) : action unit :=
  let integration_id := id integration in
  auth_config ← lift (get_auth_config integration);
  config ← lift (get_pull_config integration);
  transmissions_raw_xml ← lift (transmissions_fetch env);
  let timestamp := now env in
  let transmissions_file_name :=
    timestamp +:+ "_" +:+ integration_id +:+ "_transmissions.xml" in
  _ ← write_file ("/tmp/" +:+ transmissions_file_name) transmissions_raw_xml;
  _ ← upload_file integration_id ("/tmp/" +:+ transmissions_file_name)
        transmissions_file_name
        [("integration_id", integration_id); ("ats_username", username auth_config)];
  let data_points_file_name :=
    timestamp +:+ "_" +:+ integration_id +:+ "_data_points.xml" in
  config ← lift (get_pull_config integration);
  data_points_raw_xml ← lift (data_points_fetch env);
  _ ← write_file ("/tmp/" +:+ data_points_file_name) data_points_raw_xml;
  _ ← upload_file integration_id ("/tmp/" +:+ data_points_file_name)
        data_points_file_name
        [("integration_id", integration_id); ("ats_username", username auth_config);
         ("status", "pending")];
  group_add PENDING_FILES [data_points_file_name].

(** [stamina.retry_context(on=httpx.HTTPError, attempts=3, ...)]: an
    attempt that raises [HTTPError] is run again while attempts remain;
    the last [HTTPError] and every other exception leave the loop at
    once.  [remaining] counts the attempts after the current one, [k]
    numbers the current one. *)
Fixpoint retry_context (remaining k : nat) (body : nat -> action unit) : action unit :=
  fun w =>
    match body k w with
    | (w', Raise HTTPError) =>
        match remaining with
        | O => (w', Raise HTTPError)
        | S remaining' => retry_context remaining' (S k) body w'
        end
    | outcome => outcome
    end.

Record pull_result := { observations_extracted : Z }.

(** The [except httpx.HTTPError] clause logs and raises the same
    exception again, and the [else] clause only logs: an exception
    leaving the retry loop leaves the action, and a normal end reaches
    the [return]. *)
Definition action_pull_observations (integration : Integration)
    (envs : nat -> attempt_env) : action pull_result :=
  let observations_extracted := 0 in
  _ ← retry_context 2 0 (fun k => pull_attempt integration (envs k));
  mret {| observations_extracted := observations_extracted |}.

(** *** [action_process_observations]

    The batches of one device go to the downstream sensor API through
    [gundi_tools.send_observations_to_gundi].  What is kept of that
    service is the list of batches it accepted, in order, and the
    number of calls made. *)

Record gundi := {
  delivered : list (list observation);
  calls : nat
}.

(** Modelled from the spec: [send_observations_to_gundi], the
    outbound batch delivery collaborator.  The outcome of the k-th call
    is an input ([responses k]); an accepted batch is appended to the
    deliveries, a call that raises delivers nothing. *)
Definition send_observations_to_gundi (responses : nat -> result unit)
    (observations : list observation) (g : gundi) : gundi * result unit :=
  match responses (calls g) with
  | Ok _ => ({| delivered := (delivered g ++ [observations])%list; calls := S (calls g) |}, Ok ())
  | Raise e => ({| delivered := delivered g; calls := S (calls g) |}, Raise e)
  end.

(** [range(0, stop, step)] for [stop >= 0]: a zero step raises
    [ValueError], a negative one gives no index. *)
Definition range_from_zero (stop step : Z) : result (list Z) :=
  if bool_decide (step = 0) then Raise ValueError
  else if bool_decide (step < 0) then Ok []
  else Ok ((fun k : nat => Z.of_nat k * step)
             <$> seq 0 (Z.to_nat ((stop + step - 1) / step))).

(** [iterable[i: i + n]] for [0 <= i] and [0 < n]. *)
Definition slice {A} (iterable : list A) (i n : Z) : list A :=
  take (Z.to_nat n) (drop (Z.to_nat i) iterable).

(** The generator [generate_batches(iterable, n)], as the list of the
    batches it yields; the [ValueError] of a zero [n] is raised when the
    first batch is asked for, before anything is sent. *)
Definition generate_batches {A} (iterable : list A) (n : Z) : result (list (list A)) :=
  match range_from_zero (Z.of_nat (length iterable)) n with
  | Ok indices => Ok ((fun i => slice iterable i n) <$> indices)
  | Raise e => Raise e
  end.

(** One batch under [stamina.retry_context(on=httpx.HTTPError,
    attempts=3, ...)]: the [except httpx.HTTPError] inside the attempt
    logs and raises the same exception again. *)
Fixpoint send_with_retry (remaining : nat) (responses : nat -> result unit)
    (batch : list observation) (g : gundi) : gundi * result unit :=
  match send_observations_to_gundi responses batch g with
  | (g', Raise HTTPError) =>
      match remaining with
      | O => (g', Raise HTTPError)
      | S remaining' => send_with_retry remaining' responses batch g'
      end
  | outcome => outcome
  end.

(** [for i, batch in enumerate(generate_batches(transformed_data))] *)
Fixpoint send_batches (responses : nat -> result unit)
    (batches : list (list observation)) (g : gundi) : gundi * result unit :=
  match batches with
  | [] => (g, Ok ())
  | batch :: rest =>
      match send_with_retry 2 responses batch g with
      | (g', Ok _) => send_batches responses rest g'
      | (g', Raise e) => (g', Raise e)
      end
  end.

(** [for serial_num, data_points in data_points_per_device.items()]:
    the dictionary is its list of items in insertion order.  The
    result carries the records logged by [filter_and_transform] and the
    count [observations_processed]. *)
Fixpoint process_devices (responses : nat -> result unit)
    (observations_per_request : Z) (integration_id : string)
    (gmt_offsets : gmap string (option Z))
    (data_points_per_device : list (string * list DataResponse))
    (observations_processed : Z) (g : gundi)
    : gundi * (list log_record * result Z) :=
  match data_points_per_device with
  | [] => (g, ([], Ok observations_processed))
  | (serial_num, data_points) :: rest =>
      match filter_and_transform serial_num data_points
              (get_offset gmt_offsets serial_num) integration_id "pull_observations" with
      | (logs, Raise e) => (g, (logs, Raise e))
      | (logs, Ok []) =>
          let '(g', (logs', r)) :=
            process_devices responses observations_per_request integration_id
              gmt_offsets rest observations_processed g in
          (g', ((logs ++ logs')%list, r))
      | (logs, Ok transformed_data) =>
          match generate_batches transformed_data observations_per_request with
          | Raise e => (g, (logs, Raise e))
          | Ok batches =>
              match send_batches responses batches g with
              | (g', Raise e) => (g', (logs, Raise e))
              | (g', Ok _) =>
                  let '(g'', (logs', r)) :=
                    process_devices responses observations_per_request integration_id
                      gmt_offsets rest
                      (observations_processed + Z.of_nat (length transformed_data)) g' in
                  (g'', ((logs ++ logs')%list, r))
              end
          end
      end
  end.

(** The action as it stands: the transmissions and the data points
    are not read yet ([ToDo: Read from file]), both are empty. *)
Definition action_process_observations (integration : Integration)
    (observations_per_request : Z) (responses : nat -> result unit) (g : gundi)
    : gundi * (list log_record * result Z) :=
  let transmissions : list TransmissionsResponse := [] in
  let data_points_per_device : list (string * list DataResponse) := [] in
  let observations_processed := 0 in
  let '(logs, gmt_offsets) := extract_gmt_offsets transmissions (id integration) in
  let '(g', (logs', r)) :=
    process_devices responses observations_per_request (id integration) gmt_offsets
      data_points_per_device observations_processed g in
  (g', ((logs ++ logs')%list, r)).

(** What [filter_and_transform] returns for each device of the
    dictionary, when it returns for all. *)
Definition transformed_per_device (integration_id : string)
    (gmt_offsets : gmap string (option Z))
    (data_points_per_device : list (string * list DataResponse))
    (per_device : list (list observation)) : Prop :=
  Forall2 (fun item obs =>
             (filter_and_transform item.1 item.2 (get_offset gmt_offsets item.1)
                integration_id "pull_observations").2 = Ok obs)
          data_points_per_device per_device.

(** The result of one pull attempt while the local file system and
    the two stores accept what they are given, as they do in this
    model: it is read off the configurations and the two fetches. *)
Definition attempt_outcome (integration : Integration) (env : attempt_env) : result unit :=
  _ ← get_auth_config integration;
  _ ← get_pull_config integration;
  _ ← transmissions_fetch env;
  _ ← data_points_fetch env;
  Ok ().

End Handlers.


(** ** The staging file state machine *)

Module Staging.

(** Modelled from the spec: the three membership sets of the staging
    file state machine and the operations [getStatus] and [setStatus]
    ([action_get_file_status], [action_set_file_status]).  The handlers
    themselves are not among the sources at hand; their tests
    ([tests/test_files.py]) give the group names, the status values and
    the messages. *)

Inductive FileStatus : Type := PENDING | IN_PROGRESS | PROCESSED.

Definition FileStatus_value (s : FileStatus) : string :=
  match s with
  | PENDING => "pending"
  | IN_PROGRESS => "in_progress"
  | PROCESSED => "processed"
  end.

Definition PENDING_FILES : string := "ats_pending_files".
Definition IN_PROGRESS_FILES : string := "ats_in_progress_files".
Definition PROCESSED_FILES : string := "ats_processed_files".

Definition group_of (s : FileStatus) : string :=
  match s with
  | PENDING => PENDING_FILES
  | IN_PROGRESS => IN_PROGRESS_FILES
  | PROCESSED => PROCESSED_FILES
  end.

(** The shared stores: group membership, and the metadata the blob
    store keeps for each file of an integration. *)
Record store := {
  groups : gmap string (gset string);
  blob_metadata : gmap (string * string) (gmap string string)
}.

(** The result dictionary of an action. *)
Record response := {
  file_status : string;
  message : string
}.

(** Modelled from the spec: the membership store's
    [isMember(group, value)] and [add(group, values)], and the blob
    store's [updateMetadata(integrationId, blobName, metadata)], which
    are not among the sources. *)
Definition group_ismember (group_name value : string) (st : store) : bool :=
  bool_decide (value ∈ groups st !!! group_name).

Definition group_add (group_name : string) (values : list string) (st : store) : store :=
  {| groups := <[group_name := groups st !!! group_name ∪ list_to_set values]> (groups st);
     blob_metadata := blob_metadata st |}.

Definition update_file_metadata (integration_id blob_name : string)
    (meta : list (string * string)) (st : store) : store :=
  {| groups := groups st;
     blob_metadata :=
       <[(integration_id, blob_name) :=
           list_to_map meta ∪ blob_metadata st !!! (integration_id, blob_name)]>
         (blob_metadata st) |}.

(** Modelled from the spec: [getStatus] checks the sets in the order
    Pending, InProgress, Processed; [None] is "Not found". *)
Definition get_file_status (filename : string) (st : store) : option FileStatus :=
  if group_ismember PENDING_FILES filename st then Some PENDING
  else if group_ismember IN_PROGRESS_FILES filename st then Some IN_PROGRESS
  else if group_ismember PROCESSED_FILES filename st then Some PROCESSED
  else None.

(** Modelled from the spec: [move(fromGroup, toGroup, values)] of a
    membership store that is available. *)
Definition group_move_ok (from_group to_group : string) (values : list string)
    (g : gmap string (gset string)) : result (gmap string (gset string)) :=
  let g' := <[from_group := g !!! from_group ∖ list_to_set values]> g in
  Ok (<[to_group := g' !!! to_group ∪ list_to_set values]> g').

(** Modelled from the spec: [move] of a membership store that is
    unavailable (the move raises). *)
Definition group_move_unavailable (from_group to_group : string) (values : list string)
    (g : gmap string (gset string)) : result (gmap string (gset string)) :=
  Raise (Exception "Test exception").

Section set_status.
(** The store's [move(fromGroup, toGroup, values)]; it may raise. *)
Variable group_move :
  string -> string -> list string -> gmap string (gset string) ->
  result (gmap string (gset string)).

(** Modelled from the spec: [setStatus(filename, targetState)]. *)
Definition action_set_file_status (integration_id filename : string)
    (status : FileStatus) (st : store) : store * response :=
  match get_file_status filename st with
  | None =>
      (update_file_metadata integration_id filename
         [("status", FileStatus_value PENDING)]
         (group_add PENDING_FILES [filename] st),
       {| file_status := "Not found";
          message := "File '" +:+ filename
                     +:+ "' not found in any group. Moving file to PENDING status." |})
  | Some current =>
      match group_move (group_of current) (group_of status) [filename] (groups st) with
      | Ok groups' =>
          ({| groups := groups'; blob_metadata := blob_metadata st |},
           {| file_status := FileStatus_value status;
              message := "File status for '" +:+ filename +:+ "' in integration '"
                         +:+ integration_id +:+ "' set to '"
                         +:+ FileStatus_value status +:+ "'." |})
      | Raise _ =>
          (st, {| file_status := FileStatus_value PENDING;
                  message := "Error setting file status" |})
      end
  end.
End set_status.

End Staging.

(** ** Sample data

    Concrete inputs on which the statements below are exercised. *)

Module Examples.
Import Datetime Client Handlers.

(** One day is 86400000000 microseconds, one hour 3600000000.  The
    transmissions are pairs of a date and a label. *)
Definition midnight_and_next_midnight : list (Z * string) :=
  [(0, "a"); (86400000000, "b")].

Definition midnight_and_ten : list (Z * string) :=
  [(0, "a"); (36000000000, "b")].

Definition one_o_clock : Z := 3600000000.

Definition sample_vehicle : DataResponse :=
  {| ats_serial_num := "012345";
     longitude := Some 30.5%float;
     latitude := Some (-1.25)%float;
     date_year_and_julian := naive 63839761445000000;
     num_sats := Some "7"; hdop := None; fix_time := None; dimension := None;
     activity := None; temperature := Some "21";
     mortality := Some false; low_batt_voltage := None |}.

Definition transmission (serial_num : string) (offset : option Z) : TransmissionsResponse :=
  {| date_sent := naive 63839761445000000;
     collar_serial_num := serial_num;
     number_fixes := None; batt_voltage := None; t_mortality := None;
     break_off := None; sat_errors := None; year_base := None; day_base := None;
     gmt_offset := offset; t_low_batt_voltage := None |}.

Definition offset_missing_then_present : list TransmissionsResponse :=
  [transmission "012345" None; transmission "012345" (Some 3)].

(** A parser for four documents: a truncated one, one without the
    [DataSet] wrapper, one without rows, and one with two rows whose
    second row has neither serial number nor collar number. *)
Definition truncated_xml : string := "<DataSet><diffgr:diffgram>".
Definition no_wrapper_xml : string := "<Error>unavailable</Error>".
Definition no_rows_xml : string :=
  "<DataSet><diffgr:diffgram><NewDataSet/></diffgr:diffgram></DataSet>".
Definition two_rows_xml : string :=
  "<DataSet><diffgr:diffgram><NewDataSet><Table><AtsSerialNum>012345</AtsSerialNum><CollarSerialNum>012345</CollarSerialNum><DateYearAndJulian>2024-01-02T03:04:05</DateYearAndJulian><DateSent>2024-01-02T03:04:05</DateSent></Table><Table><Longitude>30.5</Longitude></Table></NewDataSet></diffgr:diffgram></DataSet>".

Definition complete_row : list (string * xml_value) :=
  [("AtsSerialNum", XStr "012345"); ("CollarSerialNum", XStr "012345");
   ("DateYearAndJulian", XStr "2024-01-02T03:04:05");
   ("DateSent", XStr "2024-01-02T03:04:05")].

Definition row_without_identifier : list (string * xml_value) :=
  [("Longitude", XStr "30.5")].

Definition sample_xmltodict_parse (text : string) : result (list (string * xml_value)) :=
  if bool_decide (text = no_wrapper_xml) then Ok [("Error", XStr "unavailable")]
  else if bool_decide (text = no_rows_xml) then
    Ok [("DataSet", XDict [("diffgr:diffgram", XDict [("NewDataSet", XNone)])])]
  else if bool_decide (text = two_rows_xml) then
    Ok [("DataSet",
         XDict [("diffgr:diffgram",
                 XDict [("NewDataSet",
                         XDict [("Table", XList [XDict complete_row;
                                                 XDict row_without_identifier])])])])]
  else Raise ExpatError.

Definition sample_float_of_str (s : string) : option float :=
  if bool_decide (s = "30.5") then Some 30.5%float else None.
Definition sample_int_of_str (s : string) : option Z :=
  if bool_decide (s = "3") then Some 3 else None.
Definition sample_bool_of_str (s : string) : option bool :=
  if bool_decide (s = "true") then Some true
  else if bool_decide (s = "false") then Some false else None.
Definition sample_datetime_of_str (s : string) : option datetime :=
  if bool_decide (s = "2024-01-02T03:04:05") then Some (naive 63839761445000000)
  else None.

(** A pull whose first attempt loses the second fetch to a transport
    error and whose second attempt succeeds. *)
Definition sample_integration : Integration :=
  {| id := "7f3a";
     auth_configuration := Some {| username := "ranger"; password := "secret" |};
     pull_configuration :=
       Some {| data_endpoint := "https://ats.example/data";
               transmissions_endpoint := "https://ats.example/transmissions" |} |}.

Definition sample_envs (k : nat) : attempt_env :=
  match k with
  | O => {| transmissions_fetch := Ok no_rows_xml;
            now := "20240102030405000001";
            data_points_fetch := Raise HTTPError |}
  | _ => {| transmissions_fetch := Ok no_rows_xml;
            now := "20240102030415000002";
            data_points_fetch := Ok two_rows_xml |}
  end.

Definition empty_world : world :=
  {| tmp_files := ∅; blobs := ∅; groups := ∅ |}.

(** A store that tracks one pending file. *)
Definition one_pending_file : Staging.store :=
  {| Staging.groups := {[ Staging.PENDING_FILES := {[ "test_file.xml" ]} ]};
     Staging.blob_metadata := ∅ |}.

(** Three transmissions, two of them of the same date. *)
Definition two_of_one_date : list (Z * string) :=
  [(86400000000, "x"); (0, "a"); (86400000000, "b")].

(** A row with a longitude, and the record it validates to. *)
Definition located_row : list (string * xml_value) :=
  [("AtsSerialNum", XStr "012345"); ("Longitude", XStr "30.5");
   ("DateYearAndJulian", XStr "2024-01-02T03:04:05")].

Definition located_record : DataResponse :=
  {| ats_serial_num := "012345";
     longitude := Some 30.5%float;
     latitude := None;
     date_year_and_julian := naive 63839761445000000;
     num_sats := None; hdop := None; fix_time := None; dimension := None;
     activity := None; temperature := None;
     mortality := None; low_batt_voltage := None |}.

(** A parser for two more documents: an empty [DataSet] element, and a
    response with a single row. *)
Definition empty_data_set_xml : string := "<DataSet/>".
Definition single_row_xml : string :=
  "<DataSet><diffgr:diffgram><NewDataSet><Table><AtsSerialNum>012345</AtsSerialNum><CollarSerialNum>012345</CollarSerialNum><DateYearAndJulian>2024-01-02T03:04:05</DateYearAndJulian><DateSent>2024-01-02T03:04:05</DateSent></Table></NewDataSet></diffgr:diffgram></DataSet>".

Definition edge_xmltodict_parse (text : string) : result (list (string * xml_value)) :=
  if bool_decide (text = empty_data_set_xml) then Ok [("DataSet", XNone)]
  else if bool_decide (text = single_row_xml) then
    Ok [("DataSet",
         XDict [("diffgr:diffgram",
                 XDict [("NewDataSet", XDict [("Table", XDict complete_row)])])])]
  else Raise ExpatError.

(** A parser for a response with a single row that has no device
    identifier. *)
Definition lone_defective_row_xml : string :=
  "<DataSet><diffgr:diffgram><NewDataSet><Table><Longitude>30.5</Longitude></Table></NewDataSet></diffgr:diffgram></DataSet>".

Definition lone_row_xmltodict_parse (text : string) : result (list (string * xml_value)) :=
  if bool_decide (text = lone_defective_row_xml) then
    Ok [("DataSet",
         XDict [("diffgr:diffgram",
                 XDict [("NewDataSet", XDict [("Table", XDict row_without_identifier)])])])]
  else Raise ExpatError.

(** Pulls that fail: an integration without credentials, and a vendor
    that answers no attempt. *)
Definition unconfigured_integration : Integration :=
  {| id := "7f3a"; auth_configuration := None; pull_configuration := None |}.

Definition unreachable_envs (k : nat) : attempt_env :=
  {| transmissions_fetch := Raise HTTPError;
     now := "20240102030405000001";
     data_points_fetch := Raise HTTPError |}.

(** A pull whose first attempt succeeds. *)
Definition reachable_envs (k : nat) : attempt_env :=
  {| transmissions_fetch := Ok no_rows_xml;
     now := "20240102030405000001";
     data_points_fetch := Ok two_rows_xml |}.

(** The same as [sample_envs] for the three attempts a run can make. *)
Definition sample_envs_then_silence (k : nat) : attempt_env :=
  match k with
  | O | S O | S (S O) => sample_envs k
  | _ => unreachable_envs k
  end.

(** A downstream service that accepts every batch, and an empty one. *)
Definition always_accepted (k : nat) : result unit := Ok ().
Definition nothing_delivered : gundi := {| delivered := []; calls := 0 |}.

Definition one_device : list (string * list DataResponse) :=
  [("012345", [sample_vehicle; sample_vehicle; sample_vehicle])].

End Examples.

(** * Properties *)

Import Datetime Client Handlers Examples.

(** ** The nearest-transmission lookup *)

Section closest_transmission_facts.
Context {T : Type} (DateSent : T -> Z).
Implicit Types (transmissions : list T) (dates : list Z).

Lemma sorted_StronglySorted dates : StronglySorted Z.le (sorted dates).
Proof. apply StronglySorted_merge_sort; apply _. Qed.

Lemma sorted_Permutation dates : sorted dates ≡ₚ dates.
Proof. apply merge_sort_Permutation. Qed.

Lemma elem_of_sorted dates d : d ∈ sorted dates <-> d ∈ dates.
Proof. by rewrite sorted_Permutation. Qed.

Lemma sorted_nil_inv dates : sorted dates = [] -> dates = [].
Proof.
  intros H. apply Permutation_nil_r. rewrite <- H. symmetry. apply sorted_Permutation.
Qed.

Lemma last_is_Some {A} (l : list A) : l <> [] -> is_Some (last l).
Proof. induction l as [|y l IH] using rev_ind; [done|]. rewrite last_snoc. eauto. Qed.

Lemma StronglySorted_last_max dates m :
  StronglySorted Z.le dates -> last dates = Some m -> forall d, d ∈ dates -> d <= m.
Proof.
  induction 1 as [|x l Hl IH Hx]; intros Hlast d Hd.
  - inversion Hd.
  - destruct l as [|y l'].
    + simpl in Hlast. injection Hlast as <-. apply list_elem_of_singleton in Hd. lia.
    + change (last (y :: l') = Some m) in Hlast.
      apply elem_of_cons in Hd as [->|Hd]; [|by apply IH].
      assert (y <= m) by (apply IH; [done | left]).
      rewrite Forall_forall in Hx. specialize (Hx y). 
      assert (x <= y) by (apply Hx; left). lia.
Qed.

Lemma last_elem_of {A} (l : list A) x : last l = Some x -> x ∈ l.
Proof.
  induction l as [|y l IH] using rev_ind; [done|]. rewrite last_snoc. intros [= ->].
  apply elem_of_app. right. left.
Qed.

Lemma last_cons_default {A} (x y : A) (l : list A) :
  default y (last (x :: l)) = default x (last l).
Proof. rewrite last_cons. by destruct (last l). Qed.

Lemma StronglySorted_filter_Zle (P : Z -> Prop) `{!forall x, Decision (P x)} dates :
  StronglySorted Z.le dates -> StronglySorted Z.le (filter P dates).
Proof.
  induction 1 as [|x l Hl IH Hx]; [constructor|].
  rewrite filter_cons. destruct (decide (P x)); [|done].
  constructor; [done|]. apply Forall_forall. intros y Hy.
  apply list_elem_of_filter in Hy as [_ Hy]. rewrite Forall_forall in Hx. by apply Hx.
Qed.

Lemma filter_none {A} (P : A -> Prop) `{!forall x, Decision (P x)} (l : list A) :
  (forall x, x ∈ l -> ~ P x) -> filter P l = [].
Proof.
  induction l as [|x l IH]; intros Hall; [done|].
  rewrite filter_cons_False; [|apply Hall; left].
  apply IH. intros y Hy. apply Hall. by right.
Qed.

Lemma filter_none_inv {A} (P : A -> Prop) `{!forall x, Decision (P x)} (l : list A) x :
  filter P l = [] -> x ∈ l -> ~ P x.
Proof.
  intros Hnil Hx HP. assert (x ∈ filter P l) as Hin by (by apply list_elem_of_filter).
  rewrite Hnil in Hin. inversion Hin.
Qed.

Lemma scan_sorted transmissions test_date dates previous_date :
  StronglySorted Z.le dates ->
  scan DateSent transmissions test_date previous_date dates =
    match dates_at_or_after test_date dates with
    | [] => None
    | d :: _ =>
        Some (choose DateSent transmissions test_date d
                (default previous_date (last (dates_before test_date dates))))
    end.
Proof.
  intros Hs. revert previous_date.
  induction Hs as [|x l Hl IH Hx]; intros previous_date; [done|].
  cbn [scan]. unfold dates_at_or_after, dates_before in *.
  rewrite !filter_cons. case_bool_decide as Hge.
  - destruct (decide (test_date <= x)); [|lia].
    destruct (decide (x < test_date)); [lia|].
    assert (filter (fun d => d < test_date) l = []) as ->.
    { apply filter_none. intros y Hy. rewrite Forall_forall in Hx.
      specialize (Hx y Hy). lia. }
    cbn. unfold choose, day_distance. by case_bool_decide.
  - destruct (decide (test_date <= x)); [lia|].
    destruct (decide (x < test_date)); [|lia].
    rewrite IH. destruct (filter _ l); [done|].
    by rewrite last_cons_default.
Qed.

Lemma first_dated_elem transmissions d :
  d ∈ DateSent <$> transmissions ->
  exists r, first_dated DateSent transmissions d = Ok r /\ r ∈ transmissions /\ DateSent r = d.
Proof.
  intros Hd. apply list_elem_of_fmap in Hd as (r & -> & Hr).
  unfold first_dated.
  destruct (filter (fun t => DateSent t = DateSent r) transmissions) as [|r' l'] eqn:Hf.
  - exfalso. by apply (filter_none_inv _ _ r Hf Hr).
  - assert (r' ∈ filter (fun t => DateSent t = DateSent r) transmissions) as Hin
      by (rewrite Hf; left).
    apply list_elem_of_filter in Hin as [Heq Hin]. eauto.
Qed.

Lemma closest_transmission_nil test_date :
  closest_transmission DateSent [] test_date = Raise IndexError.
Proof. reflexivity. Qed.

Lemma sorted_last transmissions :
  transmissions <> [] ->
  exists max_date, last (sorted (DateSent <$> transmissions)) = Some max_date.
Proof.
  intros Hne. apply last_is_Some. intros Hnil. apply sorted_nil_inv in Hnil.
  by apply fmap_nil_inv in Hnil.
Qed.

Lemma closest_transmission_unfold transmissions test_date max_date :
  last (sorted (DateSent <$> transmissions)) = Some max_date ->
  closest_transmission DateSent transmissions test_date =
    match dates_at_or_after test_date (sorted (DateSent <$> transmissions)) with
    | [] => first_dated DateSent transmissions max_date
    | d :: _ =>
        choose DateSent transmissions test_date d
          (default max_date
             (last (dates_before test_date (sorted (DateSent <$> transmissions)))))
    end.
Proof.
  intros Hlast. unfold closest_transmission, last_item. rewrite Hlast. cbn.
  rewrite scan_sorted by apply sorted_StronglySorted.
  by destruct (dates_at_or_after _ _).
Qed.

Lemma sorted_last_is_max transmissions max_date :
  last (sorted (DateSent <$> transmissions)) = Some max_date ->
  is_max_date DateSent transmissions max_date.
Proof.
  intros Hlast. split.
  - apply elem_of_sorted. by apply last_elem_of.
  - intros d Hd. apply (StronglySorted_last_max _ _ (sorted_StronglySorted _) Hlast).
    by apply elem_of_sorted.
Qed.

Lemma first_at_or_after_is_smallest transmissions test_date d rest :
  dates_at_or_after test_date (sorted (DateSent <$> transmissions)) = d :: rest ->
  is_smallest_at_or_after DateSent transmissions test_date d.
Proof.
  intros Hf.
  assert (StronglySorted Z.le (d :: rest)) as Hs.
  { rewrite <- Hf. apply StronglySorted_filter_Zle, sorted_StronglySorted. }
  assert (forall x, x ∈ d :: rest <-> test_date <= x /\ x ∈ DateSent <$> transmissions) as Hin.
  { intros x. rewrite <- Hf. unfold dates_at_or_after.
    rewrite list_elem_of_filter, elem_of_sorted. done. }
  destruct (proj1 (Hin d)) as [Hge Hd]; [left|].
  repeat split; [done..|]. intros d' Hd' Hge'.
  assert (d' ∈ d :: rest) as Hmem by (apply Hin; done).
  apply elem_of_cons in Hmem as [->|Hmem]; [lia|].
  apply StronglySorted_inv in Hs as [_ Hall]. rewrite Forall_forall in Hall. by apply Hall.
Qed.

Lemma last_before_is_largest transmissions test_date p :
  last (dates_before test_date (sorted (DateSent <$> transmissions))) = Some p ->
  is_largest_before DateSent transmissions test_date p.
Proof.
  intros Hlast.
  assert (StronglySorted Z.le (dates_before test_date (sorted (DateSent <$> transmissions))))
    as Hs by apply StronglySorted_filter_Zle, sorted_StronglySorted.
  assert (forall x, x ∈ dates_before test_date (sorted (DateSent <$> transmissions))
                    <-> x < test_date /\ x ∈ DateSent <$> transmissions) as Hin.
  { intros x. unfold dates_before. rewrite list_elem_of_filter, elem_of_sorted. done. }
  destruct (proj1 (Hin p)) as [Hlt Hp]; [by apply last_elem_of|].
  repeat split; [done..|]. intros p' Hp' Hlt'.
  apply (StronglySorted_last_max _ _ Hs Hlast). by apply Hin.
Qed.

(** On objects that carry the attribute: on the empty list
    [closest_transmission] raises [IndexError] (the last element of an
    empty sorted list is read); on a non-empty list it returns a
    transmission of the input list. *)
Theorem closest_transmission_defined transmissions test_date :
  match transmissions with
  | [] => closest_transmission DateSent transmissions test_date = Raise IndexError
  | _ :: _ =>
      exists r, closest_transmission DateSent transmissions test_date = Ok r
                /\ r ∈ transmissions
  end.
Proof.
  destruct transmissions as [|t0 rest] eqn:Heq; [done|]. rewrite <- Heq.
  assert (transmissions <> []) as Hne by (by subst).
  clear Heq. destruct (sorted_last transmissions Hne) as [max_date Hlast].
  rewrite (closest_transmission_unfold _ test_date _ Hlast).
  pose proof (sorted_last_is_max _ _ Hlast) as [Hmax _].
  assert (forall x, x ∈ DateSent <$> transmissions ->
            exists r, first_dated DateSent transmissions x = Ok r /\ r ∈ transmissions) as Hfd.
  { intros x Hx. destruct (first_dated_elem _ _ Hx) as (r & ? & ? & _). eauto. }
  destruct (dates_at_or_after _ _) as [|d rest'] eqn:Hf; [by apply Hfd|].
  apply first_at_or_after_is_smallest in Hf as [Hd _].
  unfold choose. case_bool_decide; [by apply Hfd|].
  destruct (last (dates_before _ _)) as [p|] eqn:Hp; cbn; [|by apply Hfd].
  apply last_before_is_largest in Hp as [Hp _]. by apply Hfd.
Qed.

Lemma smallest_at_or_after_unique transmissions test_date d d' :
  is_smallest_at_or_after DateSent transmissions test_date d ->
  is_smallest_at_or_after DateSent transmissions test_date d' -> d = d'.
Proof.
  intros (H1 & H2 & H3) (H1' & H2' & H3').
  specialize (H3 d' H1' H2'). specialize (H3' d H1 H2). lia.
Qed.



End closest_transmission_facts.


(** ** The call, with the attribute read as it is *)

Section closest_transmission_call_facts.
Context {T : Type} (DateSent : T -> Z).
Implicit Types (transmissions : list T).

#[local] Abbreviation dated := (fun t : T => (t, DateSent t)).
#[local] Abbreviation dated_result := (fun r : result T =>
  match r with
  | Ok t => Ok (t, DateSent t)
  | Raise e => Raise e
  end).

Lemma read_DateSent_Ok getattr_DateSent transmissions :
  Forall (fun t => getattr_DateSent t = Ok (DateSent t)) transmissions ->
  read_DateSent getattr_DateSent transmissions = Ok (dated <$> transmissions).
Proof.
  induction 1 as [|t rest Ht _ IH]; [done|].
  cbn [read_DateSent]. by rewrite Ht, IH.
Qed.

Lemma read_DateSent_Raise getattr_DateSent before t after e :
  Forall (fun t => getattr_DateSent t = Ok (DateSent t)) before ->
  getattr_DateSent t = Raise e ->
  read_DateSent getattr_DateSent (before ++ t :: after)%list = Raise e.
Proof.
  intros Hbefore Ht. induction Hbefore as [|t0 rest Ht0 _ IH].
  - cbn. by rewrite Ht.
  - cbn [app read_DateSent]. by rewrite Ht0, IH.
Qed.

Lemma first_dated_dated transmissions date :
  first_dated snd (dated <$> transmissions) date
  = dated_result (first_dated DateSent transmissions date).
Proof.
  unfold first_dated. induction transmissions as [|t rest IH]; [done|].
  rewrite fmap_cons, !filter_cons. cbn [snd].
  destruct (decide (DateSent t = date)); [done|]. apply IH.
Qed.

Lemma scan_dated transmissions test_date previous_date dates :
  scan snd (dated <$> transmissions) test_date previous_date dates
  = dated_result <$> scan DateSent transmissions test_date previous_date dates.
Proof.
  revert previous_date. induction dates as [|date rest IH]; intros previous_date; [done|].
  cbn [scan]. repeat case_bool_decide; cbn [fmap option_fmap option_map];
    by rewrite ?first_dated_dated, ?IH.
Qed.

(** On objects whose [DateSent] reads, the call is the function of the
    section [closest_transmission] at this read. *)
Lemma closest_transmission_call_reads getattr_DateSent transmissions test_date :
  Forall (fun t => getattr_DateSent t = Ok (DateSent t)) transmissions ->
  closest_transmission_call getattr_DateSent transmissions test_date
  = closest_transmission DateSent transmissions test_date.
Proof.
  intros Hreads. unfold closest_transmission_call.
  rewrite (read_DateSent_Ok _ _ Hreads). unfold closest_transmission.
  rewrite <- list_fmap_compose.
  change (snd ∘ dated) with DateSent.
  destruct (last_item (sorted (DateSent <$> transmissions))) as [max_date|e]; [|done].
  cbn [mbind result_bind]. rewrite scan_dated.
  destruct (scan DateSent transmissions test_date max_date _) as [[r|e]|]; [done..|].
  cbn [fmap option_fmap option_map]. rewrite first_dated_dated.
  by destruct (first_dated DateSent transmissions max_date).
Qed.

(** The first read that raises ends the call with its exception. *)
Lemma closest_transmission_call_raises getattr_DateSent before t after e test_date :
  Forall (fun t => getattr_DateSent t = Ok (DateSent t)) before ->
  getattr_DateSent t = Raise e ->
  closest_transmission_call getattr_DateSent (before ++ t :: after)%list test_date
  = Raise e.
Proof.
  intros Hbefore Ht. unfold closest_transmission_call.
  by rewrite (read_DateSent_Raise _ _ _ _ _ Hbefore Ht).
Qed.
End closest_transmission_call_facts.

(** C9: on the empty list the call raises [IndexError] (the last
    element of an empty sorted list is read).  On a non-empty list of
    the transmission records of this repository it does not return a
    transmission: the first read of [DateSent] raises
    [AttributeError], the field of [TransmissionsResponse] being
    [date_sent]. *)
Theorem closest_transmission_raises_on_records
    (record : TransmissionsResponse) (rest : list TransmissionsResponse) (test_date : Z) :
  closest_transmission_call TransmissionsResponse_DateSent [] test_date
    = Raise IndexError /\
  TransmissionsResponse_getattr record "date_sent" = Ok (ADatetime (date_sent record)) /\
  TransmissionsResponse_getattr record "DateSent" = Raise AttributeError /\
  closest_transmission_call TransmissionsResponse_DateSent (record :: rest) test_date
    = Raise AttributeError.
Proof.
  do 3 (split; [reflexivity|]).
  apply (closest_transmission_call_raises (fun t => wall (date_sent t)) _ []); by constructor.
Qed.

(** C1: the comparison is not the one of the documented lookup.  With
    objects that carry a [DateSent], at 00:00 of two consecutive days,
    and a target at 01:00 of the first, the call returns the later
    transmission, 23 hours away: its difference has [days = 0], the
    difference of -1 hour has [days = -1], of absolute value 1.  The
    lookup by absolute distance returns the earlier one, one hour
    away. *)
Lemma closest_transmission_not_exact_distance :
  closest_transmission_call (fun t => Ok (fst t)) midnight_and_next_midnight one_o_clock
    = Ok (86400000000, "b") /\
  closest_transmission fst midnight_and_next_midnight one_o_clock
    = Ok (86400000000, "b") /\
  findNearestTransmission_spec fst midnight_and_next_midnight one_o_clock
    = Ok (0, "a") /\
  days (86400000000 - one_o_clock) = 0 /\ days (0 - one_o_clock) = -1.
Proof. vm_compute. auto. Qed.

(** C2: with objects that carry a [DateSent], at 00:00 and at 10:00 of
    one day, and the target at 00:00, the minimum date, the call
    returns the transmission of 10:00: its date is neither the smallest
    date at or after the target nor a date before it.  Both differences
    have [days = 0], so the comparison fails and the previous date, the
    maximum, is taken.  The lookup by absolute distance returns the
    transmission of 00:00, the smallest date at or after the target. *)
Lemma closest_transmission_third_date :
  is_min_date fst midnight_and_ten 0 /\
  0 <= 0 /\
  closest_transmission_call (fun t => Ok (fst t)) midnight_and_ten 0
    = Ok (36000000000, "b") /\
  closest_transmission fst midnight_and_ten 0 = Ok (36000000000, "b") /\
  findNearestTransmission_spec fst midnight_and_ten 0 = Ok (0, "a") /\
  is_smallest_at_or_after fst midnight_and_ten 0 0 /\
  days (0 - 0) = 0 /\ days (36000000000 - 0) = 0 /\
  ~ is_smallest_at_or_after fst midnight_and_ten 0 36000000000 /\
  ~ is_largest_before fst midnight_and_ten 0 36000000000.
Proof.
  assert (forall d, d ∈ fst <$> midnight_and_ten -> 0 <= d) as Hall.
  { intros d Hd. cbn in Hd.
    repeat (apply elem_of_cons in Hd as [->|Hd]); [lia..|inversion Hd]. }
  split; [by split; [left|]|].
  split; [lia|].
  do 3 (split; [by vm_compute|]).
  split; [split; [left|split; [lia|intros d Hd _; by apply Hall]]|].
  do 2 (split; [by vm_compute|]).
  split.
  - intros (_ & _ & H). specialize (H 0). cbn in H.
    assert (36000000000 <= 0); [|lia]. apply H; [left|lia].
  - intros (_ & H & _). lia.
Qed.

(** ** Offsets and the transform *)

Lemma setdefault_lookup key default accumulator k :
  setdefault key default accumulator !! k =
    match accumulator !! k with
    | Some v => Some v
    | None => if decide (key = k) then Some default else None
    end.
Proof.
  unfold setdefault. destruct (accumulator !! key) eqn:Hkey.
  - destruct (accumulator !! k) eqn:Hk; [done|].
    destruct (decide (key = k)) as [->|]; [congruence|done].
  - rewrite lookup_insert. destruct (decide (key = k)) as [->|].
    + by rewrite Hkey.
    + by destruct (accumulator !! k).
Qed.

Lemma foldl_setdefault_lookup transmissions accumulator k :
  foldl (fun accumulator item =>
           setdefault (collar_serial_num item) (gmt_offset item) accumulator)
        accumulator transmissions !! k =
    match accumulator !! k with
    | Some v => Some v
    | None => gmt_offset <$> first_transmission_of k transmissions
    end.
Proof.
  revert accumulator. unfold first_transmission_of.
  induction transmissions as [|item rest IH]; intros accumulator.
  - cbn. by destruct (accumulator !! k).
  - cbn [foldl]. rewrite IH, setdefault_lookup, filter_cons.
    destruct (accumulator !! k); [done|].
    destruct (decide (collar_serial_num item = k)); done.
Qed.

(** C4: the derived map sends each device to the offset of its first
    transmission in input order, whatever comes later for that device;
    for no transmissions it is empty, and every device then reads the
    offset 0. *)
Theorem extract_gmt_offsets_first_wins transmissions integration_id serial_num :
  (extract_gmt_offsets transmissions integration_id).2 !! serial_num
    = gmt_offset <$> first_transmission_of serial_num transmissions
  /\ (extract_gmt_offsets [] integration_id).2 = ∅
  /\ get_offset (extract_gmt_offsets [] integration_id).2 serial_num = Some 0.
Proof.
  split; [|done].
  destruct transmissions as [|item rest]; [done|].
  unfold extract_gmt_offsets. cbn [snd].
  by rewrite foldl_setdefault_lookup, lookup_empty.
Qed.

Lemma transform_loop_TypeError gmt_offset vehicles :
  transform_loop gmt_offset vehicles <> Raise TypeError.
Proof.
  induction vehicles as [|vehicle rest IH]; [done|].
  cbn [transform_loop]. unfold transform_vehicle, mk_timezone.
  case_bool_decide; [|done]. cbn.
  destruct (transform_loop gmt_offset rest) as [obs|e]; [done|]. cbn. congruence.
Qed.

(** C8: when the first transmission of a device carries no offset, the
    derived map holds [None] for the device, not 0, whatever offsets
    later transmissions of the device carry; the transform called with
    that value raises [TypeError] at its guard, and it never does so
    on an integer offset. *)
Theorem absent_offset_is_kept_and_breaks_transform
    transmissions integration_id serial_num item vehicles action_id :
  first_transmission_of serial_num transmissions = Some item ->
  gmt_offset item = None ->
  let gmt_offsets := (extract_gmt_offsets transmissions integration_id).2 in
  gmt_offsets !! serial_num = Some None /\
  get_offset gmt_offsets serial_num = None /\
  filter_and_transform serial_num vehicles (get_offset gmt_offsets serial_num)
    integration_id action_id = ([], Raise TypeError) /\
  forall offset : Z,
    (filter_and_transform serial_num vehicles (Some offset) integration_id action_id).2
      <> Raise TypeError.
Proof.
  intros Hfirst Hnone gmt_offsets.
  assert (gmt_offsets !! serial_num = Some None) as Hlookup.
  { unfold gmt_offsets.
    destruct transmissions as [|first rest]; [done|].
    unfold extract_gmt_offsets. cbn [snd].
    by rewrite foldl_setdefault_lookup, lookup_empty, Hfirst, <- Hnone. }
  split; [done|]. unfold get_offset. rewrite Hlookup. cbn.
  split; [done|]. split; [done|].
  intros offset. case_bool_decide; apply transform_loop_TypeError.
Qed.

Lemma transform_vehicle_valid gmt_offset vehicle :
  -24 < gmt_offset < 24 ->
  transform_vehicle gmt_offset vehicle
  = Ok (observation_in {| utcoffset := hours gmt_offset |} vehicle).
Proof.
  intros Hrange. unfold transform_vehicle, mk_timezone.
  rewrite bool_decide_eq_true_2 by (unfold hours, microseconds_per_hour; lia).
  cbn. unfold observation_in. f_equal.
Qed.

Lemma transform_vehicle_boundary gmt_offset vehicle :
  gmt_offset = 24 \/ gmt_offset = -24 ->
  transform_vehicle gmt_offset vehicle = Raise ValueError.
Proof. by intros [-> | ->]. Qed.

Lemma transform_loop_valid gmt_offset vehicles :
  -24 < gmt_offset < 24 ->
  transform_loop gmt_offset vehicles
  = Ok (observation_in {| utcoffset := hours gmt_offset |} <$> vehicles).
Proof.
  intros Hrange. induction vehicles as [|vehicle rest IH]; [done|].
  cbn [transform_loop]. rewrite transform_vehicle_valid, IH by done. done.
Qed.

Lemma filter_and_transform_invalid_offset serial_num vehicles offset integration_id action_id :
  Z.abs offset > 24 ->
  filter_and_transform serial_num vehicles (Some offset) integration_id action_id
  = ([ {| level := ERROR;
          log_message := "GMT offset invalid for device '" +:+ serial_num
                         +:+ "' value '" +:+ str_of_int offset +:+ "'";
          needs_attention := true |} ],
     Ok (observation_in {| utcoffset := hours 0 |} <$> vehicles)).
Proof.
  intros Hbad. unfold filter_and_transform.
  rewrite bool_decide_eq_true_2 by done.
  by rewrite transform_loop_valid by lia.
Qed.

Lemma filter_and_transform_valid_offset serial_num vehicles offset integration_id action_id :
  Z.abs offset < 24 ->
  filter_and_transform serial_num vehicles (Some offset) integration_id action_id
  = ([], Ok (observation_in {| utcoffset := hours offset |} <$> vehicles)).
Proof.
  intros Hok. unfold filter_and_transform.
  rewrite bool_decide_eq_false_2 by lia.
  by rewrite transform_loop_valid by lia.
Qed.

(** The call on an integer offset, case by case. *)
Lemma filter_and_transform_by_offset serial_num vehicles offset integration_id action_id :
  filter_and_transform serial_num vehicles (Some offset) integration_id action_id =
    if bool_decide (Z.abs offset > 24) then
      ([ {| level := ERROR;
            log_message := invalid_offset_message serial_num offset;
            needs_attention := true |} ],
       Ok (observation_in {| utcoffset := hours 0 |} <$> vehicles))
    else if bool_decide (Z.abs offset = 24) then
      ([], match vehicles with [] => Ok [] | _ :: _ => Raise ValueError end)
    else ([], Ok (observation_in {| utcoffset := hours offset |} <$> vehicles)).
Proof.
  case_bool_decide as Hbad; [by apply filter_and_transform_invalid_offset|].
  case_bool_decide as Hedge; [|apply filter_and_transform_valid_offset; lia].
  unfold filter_and_transform. rewrite bool_decide_eq_false_2 by done.
  destruct vehicles as [|vehicle rest]; [done|].
  cbn [transform_loop]. rewrite transform_vehicle_boundary; [done|lia].
Qed.

(** C3, at the boundary the guard lets through: with at least one
    record and an offset of 24 or -24 hours the call logs nothing and
    raises [ValueError], the zone constructor refusing the offset; no
    observation is produced. *)
Theorem filter_and_transform_offset_24_raises
    serial_num vehicle rest integration_id action_id :
  filter_and_transform serial_num (vehicle :: rest) (Some 24) integration_id action_id
    = ([], Raise ValueError) /\
  filter_and_transform serial_num (vehicle :: rest) (Some (-24)) integration_id action_id
    = ([], Raise ValueError).
Proof. done. Qed.


Lemma absent_offset_witness :
  let gmt_offsets := (extract_gmt_offsets offset_missing_then_present "7f3a").2 in
  gmt_offsets !! "012345" = Some None /\
  get_offset gmt_offsets "012345" = None /\
  filter_and_transform "012345" [sample_vehicle] (get_offset gmt_offsets "012345")
    "7f3a" "pull_observations" = ([], Raise TypeError) /\
  forall offset : Z,
    (filter_and_transform "012345" [sample_vehicle] (Some offset)
       "7f3a" "pull_observations").2 <> Raise TypeError.
Proof.
  apply (absent_offset_is_kept_and_breaks_transform offset_missing_then_present
           "7f3a" "012345" (transmission "012345" None) [sample_vehicle]
           "pull_observations"); reflexivity.
Defined.

Example extract_gmt_offsets_sample :
  (extract_gmt_offsets [transmission "1" (Some 3); transmission "2" (Some (-5));
                        transmission "1" (Some 9)] "7f3a").2
  = {[ "1" := Some 3; "2" := Some (-5) ]}.
Proof. by vm_compute. Qed.

Example filter_and_transform_sample :
  filter_and_transform "012345" [sample_vehicle] (Some 30) "7f3a" "pull_observations"
  = ([ {| level := ERROR;
          log_message := "GMT offset invalid for device '012345' value '30'";
          needs_attention := true |} ],
     Ok [observation_in utc sample_vehicle])
  /\ recorded_at (observation_in {| utcoffset := hours 3 |} sample_vehicle)
     = {| wall := 63839761445000000; tzinfo := Some {| utcoffset := 10800000000 |} |}.
Proof. split; reflexivity. Qed.

(** ** The error policy of the parser *)

Section parser_facts.
Variable xmltodict_parse : string -> result (list (string * xml_value)).
Variable float_of_str : string -> option float.
Variable int_of_str : string -> option Z.
Variable bool_of_str : string -> option bool.
Variable datetime_of_str : string -> option datetime.

Lemma bind_None_r {A B} (m : option A) : m ≫= (fun _ => @None B) = None.
Proof. by destruct m. Qed.

Lemma data_row_defect_fails d :
  data_row_defect float_of_str datetime_of_str d ->
  DataResponse_validate float_of_str bool_of_str datetime_of_str (XDict d) = None.
Proof.
  intros Hdefect. unfold DataResponse_validate.
  destruct Hdefect as [H|H|s H Hs|s x H Hs Hr|s x H Hs Hr]; rewrite H; cbn;
    rewrite ?Hs; cbn; unfold ge_le; rewrite ?Hr; cbn;
    repeat (match goal with
            | |- context [required ?f ?x] => destruct (required f x); cbn; [|done]
            | |- context [@optional ?A ?f ?x] => destruct (@optional A f x); cbn; [|done]
            end); done.
Qed.

Lemma transmission_row_defect_fails d :
  transmission_row_defect datetime_of_str d ->
  TransmissionsResponse_validate float_of_str int_of_str bool_of_str datetime_of_str
    (XDict d) = None.
Proof.
  intros Hdefect. unfold TransmissionsResponse_validate.
  destruct Hdefect as [H|H|s H Hs]; rewrite H; cbn; rewrite ?Hs; cbn;
    repeat (match goal with
            | |- context [required ?f ?x] => destruct (required f x); cbn; [|done]
            | |- context [@optional ?A ?f ?x] => destruct (@optional A f x); cbn; [|done]
            end); done.
Qed.

Lemma parse_vehicles_fails rows d :
  XDict d ∈ rows -> data_row_defect float_of_str datetime_of_str d ->
  PullObservationsDataResponse_parse_obj float_of_str bool_of_str datetime_of_str
    (XList rows) = Raise ValidationError.
Proof.
  intros Hin Hdefect. unfold PullObservationsDataResponse_parse_obj. cbn.
  rewrite (mapM_None_2 _ rows); [done|].
  apply Exists_exists. exists (XDict d). split; [done|]. by apply data_row_defect_fails.
Qed.

Lemma parse_transmissions_fails rows d :
  XDict d ∈ rows -> transmission_row_defect datetime_of_str d ->
  PullObservationsTransmissionsResponse_parse_obj
    float_of_str int_of_str bool_of_str datetime_of_str (XList rows)
  = Raise ValidationError.
Proof.
  intros Hin Hdefect. unfold PullObservationsTransmissionsResponse_parse_obj. cbn.
  rewrite (mapM_None_2 _ rows); [done|].
  apply Exists_exists. exists (XDict d). split; [done|].
  by apply transmission_row_defect_fails.
Qed.

#[local] Abbreviation data_response := (get_data_endpoint_response xmltodict_parse
  float_of_str bool_of_str datetime_of_str).
#[local] Abbreviation transmissions_response := (get_transmissions_endpoint_response xmltodict_parse
  float_of_str int_of_str bool_of_str datetime_of_str).

(** What the readers do keep of the error policy.  A document that is
    not well-formed, or that lacks the [DataSet] key, makes both
    readers raise the malformed-response error.  When the lookups
    below [DataSet] succeed, a document without rows (no [NewDataSet],
    or one without a [Table]) is no error and yields the empty grouping
    of locations and no transmission records; and a [Table] that is a
    list of rows, one of which lacks the device identifier, has a
    missing or unparseable timestamp or, for locations, a coordinate
    out of range, makes the reader raise the malformed-response error
    for the whole response.  Left out are the documents on which a
    lookup below [DataSet] raises and those whose [Table] is not a
    list. *)
Theorem parser_error_policy integration_id username text :
  (xmltodict_parse text = Raise ExpatError ->
     raises_bad_xml (data_response integration_id username (Success text)) = true /\
     raises_bad_xml (transmissions_response integration_id username (Success text)) = true)
  /\
  (forall parsed_xml,
     xmltodict_parse text = Ok parsed_xml ->
     (dict_lookup "DataSet" parsed_xml = None ->
        raises_bad_xml (data_response integration_id username (Success text)) = true /\
        raises_bad_xml (transmissions_response integration_id username (Success text)) = true)
     /\
     (forall data,
        new_data_set parsed_xml = Ok data ->
        (truthy data = false ->
           data_response integration_id username (Success text) = Ok ∅ /\
           exists v, transmissions_response integration_id username (Success text) = Ok v
                     /\ records v = [])
        /\
        (forall items,
           data = XDict items -> items <> [] -> dict_lookup "Table" items = None ->
           data_response integration_id username (Success text) = Ok ∅ /\
           exists v, transmissions_response integration_id username (Success text) = Ok v
                     /\ records v = [])
        /\
        (forall items rows d,
           data = XDict items -> dict_lookup "Table" items = Some (XList rows) ->
           XDict d ∈ rows ->
           (data_row_defect float_of_str datetime_of_str d ->
              raises_bad_xml (data_response integration_id username (Success text)) = true)
           /\
           (transmission_row_defect datetime_of_str d ->
              raises_bad_xml (transmissions_response integration_id username (Success text))
              = true)))).
Proof.
  unfold get_data_endpoint_response, get_transmissions_endpoint_response.
  split.
  { intros ->. done. }
  intros parsed_xml ->. split.
  { intros Hmissing. unfold new_data_set, getitem. rewrite Hmissing. done. }
  intros data ->. split; [|split].
  - intros ->. split; [done|]. by exists EmptyDict.
  - intros items -> Hne Htable.
    assert (truthy (XDict items) = true) as ->.
    { cbn. by rewrite bool_decide_eq_false_2. }
    cbn. rewrite Htable. cbn. split; [done|]. by exists (RowList []).
  - intros items rows d -> Htable Hin.
    assert (truthy (XDict items) = true) as ->.
    { cbn. rewrite bool_decide_eq_false_2; [done|]. by intros ->. }
    cbn. rewrite Htable. cbn [from_option]. unfold Datatypes.id.
    split; intros Hdefect.
    + change (Ok (XList rows) ≫= ?f) with (f (XList rows)). cbv beta.
      by rewrite (parse_vehicles_fails rows d).
    + change (Ok (XList rows) ≫= ?f) with (f (XList rows)). cbv beta.
      by rewrite (parse_transmissions_fails rows d).
Qed.

(** X11: a response whose [Table] is a single row, not a list, is read
    as a response without rows: the row is not validated. *)
Lemma single_row_is_dropped integration_id username text parsed_xml items d :
  xmltodict_parse text = Ok parsed_xml ->
  new_data_set parsed_xml = Ok (XDict items) ->
  dict_lookup "Table" items = Some (XDict d) ->
  data_response integration_id username (Success text) = Ok ∅ /\
  transmissions_response integration_id username (Success text) = Ok (RowList []).
Proof.
  intros Hparse Hdata Htable.
  unfold get_data_endpoint_response, get_transmissions_endpoint_response.
  rewrite Hparse, Hdata.
  assert (truthy (XDict items) = true) as ->.
  { cbn. rewrite bool_decide_eq_false_2; [done|]. by intros ->. }
  cbn. by rewrite Htable.
Qed.
End parser_facts.

(** C5: the policy is not kept on two kinds of document.  A response
    with a single row, which [xmltodict] hands over as a dictionary and
    not as a list, is read as a response without rows although its row
    fails field validation (no device identifier, no timestamp): both
    readers return an empty result and raise nothing.  An empty
    [DataSet] element, the wrapper without its contents, makes both
    readers raise [AttributeError], which is neither the
    malformed-response error nor an empty result. *)
Lemma parser_error_policy_broken :
  let data_response parse :=
    get_data_endpoint_response parse
      sample_float_of_str sample_bool_of_str sample_datetime_of_str "7f3a" "ranger" in
  let transmissions_response parse :=
    get_transmissions_endpoint_response parse
      sample_float_of_str sample_int_of_str sample_bool_of_str sample_datetime_of_str
      "7f3a" "ranger" in
  (data_row_defect sample_float_of_str sample_datetime_of_str row_without_identifier /\
   DataResponse_validate sample_float_of_str sample_bool_of_str sample_datetime_of_str
     (XDict row_without_identifier) = None /\
   transmission_row_defect sample_datetime_of_str row_without_identifier /\
   TransmissionsResponse_validate sample_float_of_str sample_int_of_str sample_bool_of_str
     sample_datetime_of_str (XDict row_without_identifier) = None /\
   data_response lone_row_xmltodict_parse (Success lone_defective_row_xml) = Ok ∅ /\
   transmissions_response lone_row_xmltodict_parse (Success lone_defective_row_xml)
     = Ok (RowList [])) /\
  (data_response edge_xmltodict_parse (Success empty_data_set_xml) = Raise AttributeError /\
   raises_bad_xml (data_response edge_xmltodict_parse (Success empty_data_set_xml)) = false /\
   transmissions_response edge_xmltodict_parse (Success empty_data_set_xml)
     = Raise AttributeError /\
   raises_bad_xml (transmissions_response edge_xmltodict_parse (Success empty_data_set_xml))
     = false).
Proof.
  intros data_response transmissions_response. split.
  - split; [by apply missing_device_identifier|]. split; [reflexivity|].
    split; [by apply missing_collar_identifier|]. by repeat split.
  - by repeat split.
Qed.

Lemma parser_error_policy_witness :
  let data_response :=
    get_data_endpoint_response sample_xmltodict_parse
      sample_float_of_str sample_bool_of_str sample_datetime_of_str "7f3a" "ranger" in
  let transmissions_response :=
    get_transmissions_endpoint_response sample_xmltodict_parse
      sample_float_of_str sample_int_of_str sample_bool_of_str sample_datetime_of_str
      "7f3a" "ranger" in
  (raises_bad_xml (data_response (Success truncated_xml)) = true /\
   raises_bad_xml (transmissions_response (Success truncated_xml)) = true) /\
  (raises_bad_xml (data_response (Success no_wrapper_xml)) = true /\
   raises_bad_xml (transmissions_response (Success no_wrapper_xml)) = true) /\
  (data_response (Success no_rows_xml) = Ok ∅ /\
   exists v, transmissions_response (Success no_rows_xml) = Ok v /\ records v = []) /\
  (raises_bad_xml (data_response (Success two_rows_xml)) = true /\
   raises_bad_xml (transmissions_response (Success two_rows_xml)) = true).
Proof.
  intros data_response transmissions_response.
  pose proof (fun text =>
    parser_error_policy sample_xmltodict_parse sample_float_of_str sample_int_of_str
      sample_bool_of_str sample_datetime_of_str "7f3a" "ranger" text) as policy.
  split; [|split; [|split]].
  - apply (policy truncated_xml). reflexivity.
  - destruct (policy no_wrapper_xml) as [_ Hparsed].
    destruct (Hparsed _ eq_refl) as [Hwrapper _]. apply Hwrapper. reflexivity.
  - destruct (policy no_rows_xml) as [_ Hparsed].
    destruct (Hparsed _ eq_refl) as [_ Hdata].
    destruct (Hdata XNone eq_refl) as [Hempty _]. apply Hempty. reflexivity.
  - destruct (policy two_rows_xml) as [_ Hparsed].
    destruct (Hparsed _ eq_refl) as [_ Hdata].
    destruct (Hdata _ eq_refl) as (_ & _ & Hrows).
    destruct (Hrows _ [XDict complete_row; XDict row_without_identifier]
                row_without_identifier eq_refl eq_refl) as [Hlocations Htransmissions].
    { right. left. }
    split.
    + apply Hlocations. by apply missing_device_identifier.
    + apply Htransmissions. by apply missing_collar_identifier.
Defined.

(** ** The pull action *)

Lemma retry_context_success remaining k body w w' :
  retry_context remaining k body w = (w', Ok ()) ->
  exists j w0, (k <= j <= k + remaining)%nat /\ body j w0 = (w', Ok ()).
Proof.
  revert k w. induction remaining as [|remaining IH]; intros k w; cbn [retry_context].
  - destruct (body k w) as [w1 [[]|e]] eqn:Hbody.
    + intros [= <-]. exists k, w. split; [lia|done].
    + destruct e; discriminate.
  - destruct (body k w) as [w1 [[]|e]] eqn:Hbody.
    + intros [= <-]. exists k, w. split; [lia|done].
    + destruct e; try discriminate.
      intros Hrec. apply IH in Hrec as (j & w0 & Hj & Hbody'). exists j, w0.
      split; [lia|done].
Qed.

Lemma append_inj_l (s a b : string) : s +:+ a = s +:+ b -> a = b.
Proof.
  induction s as [|c s IH]; [done|].
  change (String c (s +:+ a) = String c (s +:+ b) -> a = b). intros [= H]. by apply IH.
Qed.

Lemma file_names_differ timestamp integration_id :
  timestamp +:+ "_" +:+ integration_id +:+ "_transmissions.xml"
  <> timestamp +:+ "_" +:+ integration_id +:+ "_data_points.xml".
Proof.
  intros H. do 3 apply append_inj_l in H. discriminate.
Qed.

Lemma pull_attempt_success integration env w w' :
  pull_attempt integration env w = (w', Ok ()) ->
  exists auth_config transmissions_raw_xml data_points_raw_xml,
    get_auth_config integration = Ok auth_config /\
    transmissions_fetch env = Ok transmissions_raw_xml /\
    data_points_fetch env = Ok data_points_raw_xml /\
    let transmissions_file_name :=
      now env +:+ "_" +:+ id integration +:+ "_transmissions.xml" in
    let data_points_file_name :=
      now env +:+ "_" +:+ id integration +:+ "_data_points.xml" in
    blobs w' !! (id integration, transmissions_file_name)
      = Some {| content := transmissions_raw_xml;
                metadata := [("integration_id", id integration);
                             ("ats_username", username auth_config)] |} /\
    blobs w' !! (id integration, data_points_file_name)
      = Some {| content := data_points_raw_xml;
                metadata := [("integration_id", id integration);
                             ("ats_username", username auth_config);
                             ("status", "pending")] |} /\
    group_ismember PENDING_FILES data_points_file_name w' = true.
Proof.
  unfold pull_attempt.
  destruct (get_auth_config integration) as [auth_config|e] eqn:Hauth; [|discriminate].
  destruct (get_pull_config integration) as [config|e] eqn:Hpull; [|discriminate].
  destruct (transmissions_fetch env) as [transmissions_raw_xml|e] eqn:Htx; [|discriminate].
  destruct (data_points_fetch env) as [data_points_raw_xml|e] eqn:Hdp.
  2:{ cbv [mbind action_bind lift write_file upload_file group_add tmp_files blobs groups].
      rewrite lookup_insert_eq. discriminate. }
  cbv [mbind action_bind lift write_file upload_file group_add tmp_files blobs groups].
  rewrite !lookup_insert_eq.
  intros [= <-]. exists auth_config, transmissions_raw_xml, data_points_raw_xml.
  repeat split; cbn.
  - rewrite lookup_insert_ne; [by rewrite lookup_insert_eq|].
    intros [= H]. symmetry in H. by apply file_names_differ in H.
  - by rewrite lookup_insert_eq.
  - unfold group_ismember. cbn. apply bool_decide_eq_true_2.
    rewrite lookup_total_insert_eq. set_solver.
Qed.

(** C7: when the pull returns normally, the attempt that succeeded
    (one of at most three) fetched both payloads, and the blob store
    then holds, under the two file names of that attempt, the
    transmissions text and the data-points text exactly as fetched, the
    first tagged with the integration id and the vendor username, the
    second with these and the status pending; the data-points file name
    is a member of the pending group. *)
Theorem pull_persists_both_payloads integration envs w w' r :
  action_pull_observations integration envs w = (w', Ok r) ->
  exists k auth_config transmissions_raw_xml data_points_raw_xml,
    (k < 3)%nat /\
    get_auth_config integration = Ok auth_config /\
    transmissions_fetch (envs k) = Ok transmissions_raw_xml /\
    data_points_fetch (envs k) = Ok data_points_raw_xml /\
    let transmissions_file_name :=
      now (envs k) +:+ "_" +:+ id integration +:+ "_transmissions.xml" in
    let data_points_file_name :=
      now (envs k) +:+ "_" +:+ id integration +:+ "_data_points.xml" in
    blobs w' !! (id integration, transmissions_file_name)
      = Some {| content := transmissions_raw_xml;
                metadata := [("integration_id", id integration);
                             ("ats_username", username auth_config)] |} /\
    blobs w' !! (id integration, data_points_file_name)
      = Some {| content := data_points_raw_xml;
                metadata := [("integration_id", id integration);
                             ("ats_username", username auth_config);
                             ("status", "pending")] |} /\
    group_ismember PENDING_FILES data_points_file_name w' = true.
Proof.
  unfold action_pull_observations. intros Hrun.
  destruct (retry_context 2 0 (fun k => pull_attempt integration (envs k)) w)
    as [w1 [[]|e]] eqn:Hretry.
  2:{ cbv [mbind action_bind] in Hrun. rewrite Hretry in Hrun. discriminate. }
  cbv [mbind action_bind mret action_ret] in Hrun. rewrite Hretry in Hrun.
  injection Hrun as <- _.
  apply retry_context_success in Hretry as (k & w0 & Hk & Hbody).
  apply pull_attempt_success in Hbody
    as (auth_config & transmissions_raw_xml & data_points_raw_xml & ? & ? & ? & ?).
  exists k, auth_config, transmissions_raw_xml, data_points_raw_xml.
  split; [lia|]. done.
Qed.

(** C10: whenever the pull returns normally its result is
    [{'observations_extracted': 0}]. *)
Theorem pull_result_counts_nothing integration envs w w' r :
  action_pull_observations integration envs w = (w', Ok r) ->
  r = {| observations_extracted := 0 |}.
Proof.
  unfold action_pull_observations. cbv [mbind action_bind mret action_ret].
  destruct (retry_context 2 0 _ w) as [w1 [[]|e]]; [|discriminate].
  by intros [= _ <-].
Qed.

Lemma pull_persists_both_payloads_witness :
  let w' := (action_pull_observations sample_integration sample_envs empty_world).1 in
  exists k auth_config transmissions_raw_xml data_points_raw_xml,
    (k < 3)%nat /\
    get_auth_config sample_integration = Ok auth_config /\
    transmissions_fetch (sample_envs k) = Ok transmissions_raw_xml /\
    data_points_fetch (sample_envs k) = Ok data_points_raw_xml /\
    let transmissions_file_name :=
      now (sample_envs k) +:+ "_" +:+ id sample_integration +:+ "_transmissions.xml" in
    let data_points_file_name :=
      now (sample_envs k) +:+ "_" +:+ id sample_integration +:+ "_data_points.xml" in
    blobs w' !! (id sample_integration, transmissions_file_name)
      = Some {| content := transmissions_raw_xml;
                metadata := [("integration_id", id sample_integration);
                             ("ats_username", username auth_config)] |} /\
    blobs w' !! (id sample_integration, data_points_file_name)
      = Some {| content := data_points_raw_xml;
                metadata := [("integration_id", id sample_integration);
                             ("ats_username", username auth_config);
                             ("status", "pending")] |} /\
    group_ismember PENDING_FILES data_points_file_name w' = true.
Proof.
  intros w'.
  apply (pull_persists_both_payloads sample_integration sample_envs empty_world w'
           {| observations_extracted := 0 |}).
  by vm_compute.
Defined.

Lemma pull_result_counts_nothing_witness :
  exists w' r,
    action_pull_observations sample_integration sample_envs empty_world = (w', Ok r) /\
    r = {| observations_extracted := 0 |}.
Proof.
  exists (action_pull_observations sample_integration sample_envs empty_world).1.
  eexists. split; [by vm_compute|].
  apply (pull_result_counts_nothing sample_integration sample_envs empty_world
           (action_pull_observations sample_integration sample_envs empty_world).1).
  by vm_compute.
Defined.

Example pull_sample_run :
  let w' := (action_pull_observations sample_integration sample_envs empty_world).1 in
  groups w' !!! PENDING_FILES = ({[ "20240102030415000002_7f3a_data_points.xml" ]} : gset string)
  /\ content <$> blobs w' !! ("7f3a", "20240102030415000002_7f3a_data_points.xml")
     = Some two_rows_xml
  /\ content <$> blobs w' !! ("7f3a", "20240102030405000001_7f3a_transmissions.xml")
     = Some no_rows_xml.
Proof. by vm_compute. Qed.

(** ** The staging file state machine *)

Import Staging.

Lemma not_found_iff filename st :
  get_file_status filename st = None <->
  Staging.group_ismember Staging.PENDING_FILES filename st = false /\
  Staging.group_ismember IN_PROGRESS_FILES filename st = false /\
  Staging.group_ismember Staging.PROCESSED_FILES filename st = false.
Proof.
  unfold get_file_status.
  destruct (Staging.group_ismember Staging.PENDING_FILES filename st),
           (Staging.group_ismember IN_PROGRESS_FILES filename st),
           (Staging.group_ismember Staging.PROCESSED_FILES filename st); intuition discriminate.
Qed.

(** C6: a filename that is in none of the three sets is added to the
    pending set and not to the set of the requested state, the stored
    metadata of the file gets the status pending, and the result
    reports "Not found" with the message that the file is moved to
    pending; and when the move of a tracked file raises, the call
    returns the status "pending" with the message "Error setting file
    status" instead of raising. *)
Theorem set_file_status_fallbacks group_move integration_id filename status st :
  (Staging.group_ismember Staging.PENDING_FILES filename st = false ->
   Staging.group_ismember IN_PROGRESS_FILES filename st = false ->
   Staging.group_ismember Staging.PROCESSED_FILES filename st = false ->
   let out := action_set_file_status group_move integration_id filename status st in
   Staging.group_ismember Staging.PENDING_FILES filename out.1 = true /\
   (status <> Staging.PENDING -> Staging.group_ismember (group_of status) filename out.1 = false) /\
   (blob_metadata out.1 !!! (integration_id, filename) : gmap string string) !! "status"
     = Some "pending" /\
   out.2 = {| file_status := "Not found";
              message := "File '" +:+ filename
                         +:+ "' not found in any group. Moving file to PENDING status." |})
  /\
  (forall current e,
     get_file_status filename st = Some current ->
     group_move (group_of current) (group_of status) [filename] (Staging.groups st) = Raise e ->
     (action_set_file_status group_move integration_id filename status st).2
     = {| file_status := "pending"; message := "Error setting file status" |}).
Proof.
  split.
  - intros Hp Hi Hd out.
    assert (get_file_status filename st = None) as Hnone by (by apply not_found_iff).
    unfold out, action_set_file_status. rewrite Hnone. cbn [fst snd].
    split; [|split; [|split; [|done]]].
    + unfold Staging.group_ismember, update_file_metadata, Staging.group_add. cbn.
      apply bool_decide_eq_true_2. rewrite lookup_total_insert_eq. set_solver.
    + intros Hne. unfold Staging.group_ismember, update_file_metadata, Staging.group_add. cbn.
      destruct status; [done| |].
      * rewrite lookup_total_insert_ne by done. exact Hi.
      * rewrite lookup_total_insert_ne by done. exact Hd.
    + unfold update_file_metadata. cbn. rewrite lookup_total_insert_eq.
      apply lookup_union_Some_l. cbn. by rewrite lookup_insert_eq.
  - intros current e Hcur Hmove. unfold action_set_file_status.
    by rewrite Hcur, Hmove.
Qed.

Lemma set_file_status_fallbacks_witness :
  (let out := action_set_file_status group_move_ok "7f3a" "non_existent_file.xml"
                IN_PROGRESS one_pending_file in
   Staging.group_ismember Staging.PENDING_FILES "non_existent_file.xml" out.1 = true /\
   (IN_PROGRESS <> Staging.PENDING ->
    Staging.group_ismember (group_of IN_PROGRESS) "non_existent_file.xml" out.1 = false) /\
   (blob_metadata out.1 !!! ("7f3a", "non_existent_file.xml") : gmap string string)
     !! "status" = Some "pending" /\
   out.2 = {| file_status := "Not found";
              message := "File '" +:+ "non_existent_file.xml"
                         +:+ "' not found in any group. Moving file to PENDING status." |})
  /\
  (action_set_file_status group_move_unavailable "7f3a" "test_file.xml"
     IN_PROGRESS one_pending_file).2
  = {| file_status := "pending"; message := "Error setting file status" |}.
Proof.
  split.
  - apply (set_file_status_fallbacks group_move_ok "7f3a" "non_existent_file.xml"
             IN_PROGRESS one_pending_file); by vm_compute.
  - destruct (set_file_status_fallbacks group_move_unavailable "7f3a" "test_file.xml"
                IN_PROGRESS one_pending_file) as [_ Hraise].
    apply (Hraise Staging.PENDING (Exception "Test exception")); by vm_compute.
Defined.

Example set_file_status_moves :
  action_set_file_status group_move_ok "7f3a" "test_file.xml" IN_PROGRESS one_pending_file
  = ({| Staging.groups := {[ Staging.PENDING_FILES := ∅;
                             Staging.IN_PROGRESS_FILES := {[ "test_file.xml" ]} ]};
        blob_metadata := ∅ |},
     {| file_status := "in_progress";
        message := "File status for 'test_file.xml' in integration '7f3a' set to 'in_progress'." |}).
Proof. by vm_compute. Qed.

(** * Further properties *)

Import Handlers.

(** ** More on the nearest-transmission lookup *)

Section closest_transmission_more.
Context {T : Type} (DateSent : T -> Z).
Implicit Types (transmissions : list T).

Lemma first_dated_first transmissions d r :
  first_dated DateSent transmissions d = Ok r ->
  exists before after,
    transmissions = (before ++ r :: after)%list /\ DateSent r = d /\
    Forall (fun t => DateSent t <> d) before.
Proof.
  unfold first_dated. induction transmissions as [|t rest IH]; [done|].
  rewrite filter_cons. destruct (decide (DateSent t = d)) as [Heq|Hne].
  - intros [= ->]. exists [], rest. by repeat split.
  - intros Hrest. destruct (IH Hrest) as (before & after & -> & Hd & Hall).
    exists (t :: before), after. repeat split; [done|]. by constructor.
Qed.

Lemma first_dated_date transmissions d r :
  first_dated DateSent transmissions d = Ok r -> DateSent r = d.
Proof. intros Hr. by destruct (first_dated_first _ _ _ Hr) as (? & ? & _ & ? & _). Qed.

Lemma closest_transmission_date transmissions test_date max_date r :
  last (sorted (DateSent <$> transmissions)) = Some max_date ->
  closest_transmission DateSent transmissions test_date = Ok r ->
  DateSent r =
    match dates_at_or_after test_date (sorted (DateSent <$> transmissions)) with
    | [] => max_date
    | d :: _ =>
        let previous :=
          default max_date
            (last (dates_before test_date (sorted (DateSent <$> transmissions)))) in
        if bool_decide (day_distance d test_date < day_distance previous test_date)
        then d else previous
    end.
Proof.
  intros Hlast. rewrite (closest_transmission_unfold _ _ _ _ Hlast).
  destruct (dates_at_or_after _ _) as [|d rest].
  - intros Hr. by destruct (first_dated_first _ _ _ Hr) as (? & ? & _ & ? & _).
  - unfold choose. cbn zeta. case_bool_decide; intros Hr;
      by destruct (first_dated_first _ _ _ Hr) as (? & ? & _ & ? & _).
Qed.

(** X1: ties between transmissions of one date go to the first in input
    order. *)
Theorem closest_transmission_first_in_input_order transmissions test_date r :
  closest_transmission DateSent transmissions test_date = Ok r ->
  exists before after,
    transmissions = (before ++ r :: after)%list /\
    Forall (fun t => DateSent t <> DateSent r) before.
Proof.
  intros Hr.
  destruct transmissions as [|t0 rest] eqn:Heq; [done|]. rewrite <- Heq in *.
  destruct (sorted_last DateSent transmissions) as [max_date Hlast]; [by subst|].
  rewrite (closest_transmission_unfold _ _ _ _ Hlast) in Hr.
  assert (forall d, first_dated DateSent transmissions d = Ok r ->
            exists before after,
              transmissions = (before ++ r :: after)%list /\
              Forall (fun t => DateSent t <> DateSent r) before) as Hfd.
  { intros d Hd. destruct (first_dated_first _ _ _ Hd) as (b & a & ? & <- & ?). eauto. }
  destruct (dates_at_or_after _ _); [by eapply Hfd|].
  unfold choose in Hr. case_bool_decide; by eapply Hfd.
Qed.

(** X2: for a target after every date, the transmission returned is
    one of the maximum date. *)
Theorem closest_transmission_after_all transmissions test_date max_date r :
  is_max_date DateSent transmissions max_date ->
  max_date < test_date ->
  closest_transmission DateSent transmissions test_date = Ok r ->
  DateSent r = max_date.
Proof.
  intros [Hin Hmax] Hlt.
  assert (transmissions <> []) as Hne by (intros ->; inversion Hin).
  destruct (sorted_last DateSent transmissions Hne) as [M Hlast].
  pose proof (sorted_last_is_max _ _ _ Hlast) as [HM_in HM].
  assert (M = max_date) as -> by (specialize (Hmax M HM_in); specialize (HM max_date Hin); lia).
  rewrite (closest_transmission_unfold _ _ _ _ Hlast).
  unfold dates_at_or_after. rewrite (filter_none (fun d => test_date <= d)).
  - apply first_dated_date.
  - intros d Hd. rewrite elem_of_sorted in Hd. specialize (Hmax d Hd). lia.
Qed.

(** X3: for a target at or before every date, the transmission
    returned is one of the minimum date when the maximum date lies more
    whole days after the target than the minimum date does, and one of
    the maximum date otherwise. *)
Theorem closest_transmission_before_all transmissions test_date min_date max_date r :
  is_min_date DateSent transmissions min_date ->
  is_max_date DateSent transmissions max_date ->
  test_date <= min_date ->
  closest_transmission DateSent transmissions test_date = Ok r ->
  DateSent r =
    if bool_decide (days (min_date - test_date) < days (max_date - test_date))
    then min_date else max_date.
Proof.
  intros [Hmin_in Hmin] [Hmax_in Hmax] Hle.
  assert (transmissions <> []) as Hne by (intros ->; inversion Hmin_in).
  destruct (sorted_last DateSent transmissions Hne) as [M Hlast].
  pose proof (sorted_last_is_max _ _ _ Hlast) as [HM_in HM].
  assert (M = max_date) as -> by (specialize (Hmax M HM_in); specialize (HM max_date Hmax_in); lia).
  rewrite (closest_transmission_unfold _ _ _ _ Hlast).
  destruct (dates_at_or_after _ _) as [|d rest] eqn:Hf.
  { exfalso. apply (filter_none_inv _ _ min_date Hf); [by apply elem_of_sorted|done]. }
  pose proof (first_at_or_after_is_smallest _ _ _ _ _ Hf) as (Hd & Hge & Hleast).
  assert (d = min_date) as -> by (specialize (Hleast min_date Hmin_in); specialize (Hmin d Hd); lia).
  unfold dates_before. rewrite (filter_none (fun d => d < test_date)).
  2:{ intros x Hx. rewrite elem_of_sorted in Hx. specialize (Hmin x Hx). lia. }
  cbn [last default]. unfold choose, day_distance.
  assert (0 <= days (min_date - test_date)) as H0
    by (apply Z.div_pos; unfold microseconds_per_day; lia).
  assert (days (min_date - test_date) <= days (max_date - test_date)) as H1.
  { apply Z.div_le_mono; [done|]. specialize (Hmin max_date Hmax_in). lia. }
  rewrite !Z.abs_eq by lia.
  case_bool_decide; apply first_dated_date.
Qed.

(** X4: the extent of the slip in the comparison.  When the smallest
    date at or after the target lies less than one day after it and
    some date lies before the target, the transmission returned is one
    of that later date, however near the earlier date is: the whole
    days of the later difference are 0, those of any earlier one are
    negative. *)
Theorem closest_transmission_prefers_later transmissions test_date d earlier r :
  is_smallest_at_or_after DateSent transmissions test_date d ->
  d - test_date < microseconds_per_day ->
  earlier ∈ DateSent <$> transmissions -> earlier < test_date ->
  closest_transmission DateSent transmissions test_date = Ok r ->
  DateSent r = d.
Proof.
  intros Hsmall Hday Hearlier Hlt.
  assert (transmissions <> []) as Hne by (intros ->; inversion Hearlier).
  destruct (sorted_last DateSent transmissions Hne) as [M Hlast].
  rewrite (closest_transmission_unfold _ _ _ _ Hlast).
  destruct (dates_at_or_after _ _) as [|d' rest] eqn:Hf.
  { exfalso. destruct Hsmall as (Hd & Hge & _).
    apply (filter_none_inv _ _ d Hf); [by apply elem_of_sorted|done]. }
  pose proof (first_at_or_after_is_smallest _ _ _ _ _ Hf) as Hsmall'.
  assert (d' = d) as -> by (by eapply smallest_at_or_after_unique).
  destruct (last (dates_before _ _)) as [p|] eqn:Hp.
  2:{ exfalso.
      assert (dates_before test_date (sorted (DateSent <$> transmissions)) = []) as Hnil.
      { destruct (dates_before _ _) as [|x l] eqn:Hb; [done|].
        destruct (last_is_Some (x :: l)) as [y Hy]; [done|]. congruence. }
      apply (filter_none_inv _ _ earlier Hnil); [by apply elem_of_sorted|done]. }
  pose proof (last_before_is_largest _ _ _ _ Hp) as (_ & Hplt & _).
  cbn [default from_option Datatypes.id]. unfold choose, day_distance.
  destruct Hsmall as (Hd & Hge & _).
  assert (days (d - test_date) = 0) as ->.
  { unfold days, microseconds_per_day in *. apply Z.div_small. lia. }
  assert (days (p - test_date) < 0) as Hneg.
  { unfold days, microseconds_per_day. apply Z.div_lt_upper_bound; lia. }
  rewrite bool_decide_eq_true_2 by lia.
  apply first_dated_date.
Qed.

Lemma sorted_Permutation_eq (l1 l2 : list Z) : l1 ≡ₚ l2 -> sorted l1 = sorted l2.
Proof.
  intros Hperm. apply (Sorted_unique Z.le).
  - apply Sorted_merge_sort; apply _.
  - apply Sorted_merge_sort; apply _.
  - by rewrite !sorted_Permutation.
Qed.

(** X5: the date returned does not depend on the order of the input. *)
Theorem closest_transmission_date_permutation transmissions transmissions' test_date r r' :
  transmissions ≡ₚ transmissions' ->
  closest_transmission DateSent transmissions test_date = Ok r ->
  closest_transmission DateSent transmissions' test_date = Ok r' ->
  DateSent r = DateSent r'.
Proof.
  intros Hperm Hr Hr'.
  assert (sorted (DateSent <$> transmissions) = sorted (DateSent <$> transmissions')) as Hs
    by (apply sorted_Permutation_eq; by rewrite Hperm).
  destruct transmissions as [|t0 rest] eqn:Heq; [done|]. rewrite <- Heq in *.
  destruct (sorted_last DateSent transmissions) as [max_date Hlast]; [by subst|].
  rewrite (closest_transmission_date _ _ _ _ Hlast Hr).
  rewrite Hs in Hlast.
  rewrite (closest_transmission_date _ _ _ _ Hlast Hr'). by rewrite Hs.
Qed.
End closest_transmission_more.

(** ** More on the parser *)

Lemma foldr_insert_lookup {V} (f : string -> V) (keys : list string) (k : string) :
  foldr (fun key (m : gmap string V) => <[key := f key]> m) ∅ keys !! k
  = if decide (k ∈ keys) then Some (f k) else None.
Proof.
  induction keys as [|key keys IH]; [done|].
  cbn [foldr]. rewrite lookup_insert. destruct (decide (key = k)) as [->|Hne].
  - rewrite decide_True; [done|left].
  - rewrite IH. destruct (decide (k ∈ keys)) as [Hin|Hnin].
    + rewrite decide_True; [done|by right].
    + rewrite decide_False; [done|]. intros [->|?]%elem_of_cons; done.
Qed.

(** X7: the grouping holds, for each serial number of the response and
    for no other key, the points of that device in response order. *)
Theorem group_by_serial_lookup (vehicles : list DataResponse) (serial_num : string) :
  group_by_serial vehicles !! serial_num
  = if decide (serial_num ∈ ats_serial_num <$> vehicles)
    then Some (filter (fun point => serial_num = ats_serial_num point) vehicles)
    else None.
Proof.
  unfold group_by_serial.
  rewrite (foldr_insert_lookup
             (fun s => filter (fun point => s = ats_serial_num point) vehicles)).
  destruct (decide (serial_num ∈ ats_serial_num <$> vehicles)) as [Hin|Hnin].
  - rewrite decide_True; [done|by apply elem_of_remove_dups].
  - rewrite decide_False; [done|by rewrite elem_of_remove_dups].
Qed.

Section parser_more.
Variable xmltodict_parse : string -> result (list (string * xml_value)).
Variable float_of_str : string -> option float.
Variable int_of_str : string -> option Z.
Variable bool_of_str : string -> option bool.
Variable datetime_of_str : string -> option datetime.

#[local] Abbreviation data_response := (get_data_endpoint_response xmltodict_parse
  float_of_str bool_of_str datetime_of_str).
#[local] Abbreviation transmissions_response := (get_transmissions_endpoint_response
  xmltodict_parse float_of_str int_of_str bool_of_str datetime_of_str).

Lemma required_Some {A} (validate : xml_value -> option A) f a :
  required validate f = Some a -> exists v, f = Present v /\ v <> XNone /\ validate v = Some a.
Proof. destruct f as [|[]]; try done; intros H; eexists; by repeat split. Qed.

Lemma optional_Some {A} (validate : xml_value -> option A) f a :
  optional validate f = Some (Some a) ->
  exists v, f = Present v /\ validate v = Some a.
Proof.
  destruct f as [|v]; [done|]. destruct v; cbn; try done;
    intros H; apply fmap_Some in H as (a' & Ha & [= ->]); eauto.
Qed.

(** X8: a record that passed validation carries the device identifier of
    its row, and coordinates, when it has any, within the bounds of the
    model. *)
Theorem DataResponse_validate_sound row r :
  DataResponse_validate float_of_str bool_of_str datetime_of_str row = Some r ->
  exists d,
    row = XDict d /\
    get_field "AtsSerialNum" "ats_serial_num" d = Present (XStr (ats_serial_num r)) /\
    (forall x, longitude r = Some x ->
       PrimFloat.leb (-180)%float x && PrimFloat.leb x 360%float = true) /\
    (forall y, latitude r = Some y ->
       PrimFloat.leb (-90)%float y && PrimFloat.leb y 90%float = true).
Proof.
  destruct row as [| |d|]; try done. cbn [DataResponse_validate]. intros Hval.
  exists d. split; [done|].
  apply bind_Some in Hval as (serial & Hserial & Hval).
  apply bind_Some in Hval as (lon & Hlon & Hval).
  apply bind_Some in Hval as (lat & Hlat & Hval).
  repeat (apply bind_Some in Hval as (? & _ & Hval)).
  injection Hval as <-. cbn.
  split; [|split].
  - apply required_Some in Hserial as (v & -> & _ & Hv). by destruct v; simplify_eq/=.
  - intros lon_value ->. apply optional_Some in Hlon as (v & _ & Hv).
    apply bind_Some in Hv as (x' & _ & Hrange). unfold ge_le in Hrange.
    destruct (PrimFloat.leb (-180)%float x' && PrimFloat.leb x' 360%float) eqn:Hb; [|done].
    by injection Hrange as <-.
  - intros lat_value ->. apply optional_Some in Hlat as (v & _ & Hv).
    apply bind_Some in Hv as (y' & _ & Hrange). unfold ge_le in Hrange.
    destruct (PrimFloat.leb (-90)%float y' && PrimFloat.leb y' 90%float) eqn:Hb; [|done].
    by injection Hrange as <-.
Qed.

(** X9: when [DataSet], or [diffgr:diffgram] inside it, is present but
    is not a dictionary (an empty or text-only element), the lookup
    raises [AttributeError], which neither reader catches. *)
Theorem readers_let_AttributeError_through integration_id username text parsed_xml v :
  xmltodict_parse text = Ok parsed_xml ->
  not_a_dict v = true ->
  dict_lookup "DataSet" parsed_xml = Some v \/
  (exists items, dict_lookup "DataSet" parsed_xml = Some (XDict items) /\
                 dict_lookup "diffgr:diffgram" items = Some v) ->
  data_response integration_id username (Success text) = Raise AttributeError /\
  transmissions_response integration_id username (Success text) = Raise AttributeError.
Proof.
  intros Hparse Hv Hwhere.
  assert (new_data_set parsed_xml = Raise AttributeError) as Hdata.
  { unfold new_data_set, getitem.
    destruct Hwhere as [-> | (items & -> & Hitems)]; cbn.
    - by destruct v.
    - rewrite Hitems. cbn. by destruct v. }
  unfold get_data_endpoint_response, get_transmissions_endpoint_response.
  by rewrite Hparse, Hdata.
Qed.

(** X10: on a list of rows the transmissions reader succeeds exactly
    when every row validates, and then returns one record per row, in
    row order. *)
Theorem transmissions_response_rows integration_id username text parsed_xml items rows :
  xmltodict_parse text = Ok parsed_xml ->
  new_data_set parsed_xml = Ok (XDict items) ->
  dict_lookup "Table" items = Some (XList rows) ->
  match transmissions_response integration_id username (Success text) with
  | Ok v =>
      Forall2 (fun row record =>
                 TransmissionsResponse_validate float_of_str int_of_str bool_of_str
                   datetime_of_str row = Some record)
              rows (records v)
  | Raise e =>
      raises_bad_xml (Raise e : result transmissions_value) = true /\
      Exists (fun row =>
                TransmissionsResponse_validate float_of_str int_of_str bool_of_str
                  datetime_of_str row = None) rows
  end.
Proof.
  intros Hparse Hdata Htable. unfold get_transmissions_endpoint_response.
  rewrite Hparse, Hdata.
  assert (truthy (XDict items) = true) as ->.
  { cbn. rewrite bool_decide_eq_false_2; [done|]. by intros ->. }
  cbn. rewrite Htable. cbn.
  unfold PullObservationsTransmissionsResponse_parse_obj. cbn.
  destruct (mapM _ rows) as [rs|] eqn:Hmap.
  - cbn. by apply mapM_Some.
  - cbn. split; [done|]. by apply mapM_None.
Qed.
End parser_more.

(** ** More on offsets and the transform *)

Lemma extract_gmt_offsets_map_lookup transmissions integration_id serial_num :
  (extract_gmt_offsets transmissions integration_id).2 !! serial_num
  = gmt_offset <$> first_transmission_of serial_num transmissions.
Proof.
  destruct transmissions as [|item rest]; [done|].
  unfold extract_gmt_offsets. cbn [snd].
  by rewrite foldl_setdefault_lookup, lookup_empty.
Qed.

(** X12: the offsets of a concatenation are the offsets of the first
    part, completed by those of the second for the devices the first
    part does not mention. *)
Theorem extract_gmt_offsets_app transmissions1 transmissions2 integration_id :
  (extract_gmt_offsets (transmissions1 ++ transmissions2) integration_id).2
  = (extract_gmt_offsets transmissions1 integration_id).2
    ∪ (extract_gmt_offsets transmissions2 integration_id).2.
Proof.
  apply map_eq. intros k.
  rewrite lookup_union, !extract_gmt_offsets_map_lookup.
  unfold first_transmission_of. rewrite filter_app.
  destruct (filter _ transmissions1) as [|item items]; cbn.
  - by destruct (head _).
  - by destruct (head (filter _ transmissions2)).
Qed.

(** X13: the devices of the map are exactly the collars of the
    transmissions, and the two warnings are logged exactly when there
    is no transmission. *)
Theorem extract_gmt_offsets_dom transmissions integration_id :
  dom (extract_gmt_offsets transmissions integration_id).2
    = list_to_set (collar_serial_num <$> transmissions)
  /\ (length (extract_gmt_offsets transmissions integration_id).1
      = if bool_decide (transmissions = []) then 2%nat else 0%nat).
Proof.
  split; [|by destruct transmissions].
  apply set_eq. intros k.
  rewrite elem_of_dom, extract_gmt_offsets_map_lookup, elem_of_list_to_set, list_elem_of_fmap.
  unfold first_transmission_of. split.
  - intros [v Hv]. apply fmap_Some in Hv as (item & Hhead & _).
    apply head_Some_elem_of, list_elem_of_filter in Hhead as [<- Hin]. eauto.
  - intros (item & -> & Hin).
    destruct (filter (fun i => collar_serial_num i = collar_serial_num item) transmissions)
      as [|first rest] eqn:Hf.
    + exfalso. eapply (filter_none_inv _ _ item Hf); done.
    + cbn. eauto.
Qed.

Lemma transform_loop_Ok_inv gmt_offset vehicles obs :
  transform_loop gmt_offset vehicles = Ok obs ->
  obs = observation_in {| utcoffset := hours gmt_offset |} <$> vehicles.
Proof.
  revert obs. induction vehicles as [|vehicle rest IH]; intros obs; cbn [transform_loop].
  - by intros [= <-].
  - unfold transform_vehicle at 1, mk_timezone.
    case_bool_decide; [|done]. cbn.
    destruct (transform_loop gmt_offset rest) as [obs'|e]; [|done]. cbn.
    intros [= <-]. by rewrite (IH obs').
Qed.

(** X14: a successful call returns one observation per record, in record
    order, all in one zone; each takes its source from the record (not
    from [serial_num]), keeps the clock fields and the coordinates, and
    keeps none of the four main fields among the additional ones. *)
Theorem filter_and_transform_records
    serial_num vehicles gmt_offset integration_id action_id logs obs :
  filter_and_transform serial_num vehicles gmt_offset integration_id action_id
    = (logs, Ok obs) ->
  exists tz,
    Forall2 (fun vehicle o =>
               source o = ats_serial_num vehicle /\
               source_name o = ats_serial_num vehicle /\
               type o = "tracking-device" /\
               recorded_at o = replace_tzinfo (date_year_and_julian vehicle) tz /\
               location_of o = {| lat := latitude vehicle; lon := longitude vehicle |} /\
               forall key value, (key, value) ∈ additional o -> key ∉ main_data)
            vehicles obs.
Proof.
  unfold filter_and_transform. destruct gmt_offset as [offset|]; [|done].
  assert (forall tz, Forall2 (fun vehicle o =>
               source o = ats_serial_num vehicle /\
               source_name o = ats_serial_num vehicle /\
               type o = "tracking-device" /\
               recorded_at o = replace_tzinfo (date_year_and_julian vehicle) tz /\
               location_of o = {| lat := latitude vehicle; lon := longitude vehicle |} /\
               forall key value, (key, value) ∈ additional o -> key ∉ main_data)
            vehicles (observation_in tz <$> vehicles)) as Hshape.
  { intros tz. apply Forall2_fmap_r, Forall_Forall2_diag, Forall_forall.
    intros vehicle _. repeat split. intros key value Hin.
    unfold observation_in in Hin. cbn [additional] in Hin.
    apply list_elem_of_omap in Hin as ([k v] & Hk & Hv).
    apply fmap_Some in Hv as (v' & _ & [= -> ->]).
    unfold main_data.
    repeat (apply elem_of_cons in Hk as [[= -> _]|Hk];
            [intros Hm; repeat (apply elem_of_cons in Hm as [[=]|Hm]); inversion Hm|]).
    inversion Hk. }
  case_bool_decide; intros [= _ Hloop]; apply transform_loop_Ok_inv in Hloop as ->; eauto.
Qed.

(** X15: the call raises exactly when the offset is [None], or is 24 or
    -24 with at least one record. *)
Theorem filter_and_transform_raises_iff
    serial_num vehicles gmt_offset integration_id action_id :
  (exists obs,
     (filter_and_transform serial_num vehicles gmt_offset integration_id action_id).2
     = Ok obs)
  <-> exists offset, gmt_offset = Some offset /\ (Z.abs offset <> 24 \/ vehicles = []).
Proof.
  destruct gmt_offset as [offset|].
  2:{ split; [by intros [obs Hobs]|]. by intros (offset & [=] & _). }
  rewrite filter_and_transform_by_offset.
  case_bool_decide as Hbad.
  { split; [|by eauto]. intros _. exists offset. split; [done|]. left. lia. }
  case_bool_decide as Hedge.
  - cbn. split.
    + intros [obs Hobs]. exists offset. split; [done|]. right. by destruct vehicles.
    + intros (o & [= <-] & [Hne| ->]); [lia|by eauto].
  - split; [|by eauto]. intros _. exists offset. split; [done|]. by left.
Qed.

(** ** More on the pull action *)

(** What one attempt leaves behind, whatever its outcome. *)
Lemma pull_attempt_effect integration env w :
  let out := pull_attempt integration env w in
  (forall path, is_Some (tmp_files w !! path) -> is_Some (tmp_files out.1 !! path)) /\
  (forall key, is_Some (blobs w !! key) -> is_Some (blobs out.1 !! key)) /\
  match out.2 with
  | Ok _ =>
      groups out.1
      = <[PENDING_FILES :=
            groups w !!! PENDING_FILES
            ∪ {[ now env +:+ "_" +:+ id integration +:+ "_data_points.xml" ]}]> (groups w)
  | Raise _ => groups out.1 = groups w
  end.
Proof.
  unfold pull_attempt.
  destruct (get_auth_config integration) as [auth_config|e]; [|done].
  destruct (get_pull_config integration) as [config|e]; [|done].
  destruct (transmissions_fetch env) as [transmissions_raw_xml|e]; [|done].
  cbv [mbind action_bind lift write_file upload_file group_add tmp_files blobs groups].
  rewrite !lookup_insert_eq.
  destruct (data_points_fetch env) as [data_points_raw_xml|e].
  - rewrite !lookup_insert_eq. cbn. split; [|split].
    + intros path Hpath. rewrite !lookup_insert. by repeat case_decide.
    + intros key Hkey. rewrite !lookup_insert. by repeat case_decide.
    + f_equal. f_equal. cbn. by rewrite (right_id_L ∅ (∪)).
  - cbn. split; [|split; [|done]].
    + intros path Hpath. rewrite !lookup_insert. by repeat case_decide.
    + intros key Hkey. rewrite !lookup_insert. by repeat case_decide.
Qed.

Lemma retry_context_ext remaining k body body' w :
  (forall j, (k <= j <= k + remaining)%nat -> body j = body' j) ->
  retry_context remaining k body w = retry_context remaining k body' w.
Proof.
  revert k w. induction remaining as [|remaining IH]; intros k w Hsame; cbn [retry_context].
  - by rewrite (Hsame k) by lia.
  - rewrite (Hsame k) by lia.
    destruct (body' k w) as [w1 [[]|e]]; [done|]. destruct e; try done.
    apply IH. intros j Hj. apply Hsame. lia.
Qed.

(** X16: at most three attempts are made: what the fourth and later
    attempts would meet has no influence on the run. *)
Theorem pull_makes_at_most_three_attempts integration envs envs' w :
  (forall k, (k < 3)%nat -> envs k = envs' k) ->
  action_pull_observations integration envs w
  = action_pull_observations integration envs' w.
Proof.
  intros Hsame. unfold action_pull_observations. cbv [mbind action_bind].
  rewrite (retry_context_ext 2 0 _ (fun k => pull_attempt integration (envs' k))); [done|].
  intros j Hj. by rewrite Hsame by lia.
Qed.

(** X17: only [HTTPError] is retried: any other exception of the first
    attempt (a missing configuration, a malformed response) ends the
    run with the world that attempt left. *)
Theorem pull_does_not_retry_other_errors integration envs w w1 e :
  pull_attempt integration (envs 0%nat) w = (w1, Raise e) ->
  e <> HTTPError ->
  action_pull_observations integration envs w = (w1, Raise e).
Proof.
  intros Hfirst Hne. unfold action_pull_observations. cbv [mbind action_bind].
  cbn [retry_context]. rewrite Hfirst. by destruct e.
Qed.

(** X18: when the transmissions fetch raises [HTTPError] in all three
    attempts, the run raises [HTTPError] and the world is as before. *)
Theorem pull_gives_up_after_three_failures integration envs w auth_config pull_config :
  auth_configuration integration = Some auth_config ->
  pull_configuration integration = Some pull_config ->
  (forall k, (k < 3)%nat -> transmissions_fetch (envs k) = Raise HTTPError) ->
  action_pull_observations integration envs w = (w, Raise HTTPError).
Proof.
  intros Hauth Hpull Hfail.
  assert (forall k, (k < 3)%nat ->
            pull_attempt integration (envs k) w = (w, Raise HTTPError)) as Hattempt.
  { intros k Hk. unfold pull_attempt, get_auth_config, get_pull_config.
    by rewrite Hauth, Hpull, (Hfail k Hk). }
  unfold action_pull_observations. cbv [mbind action_bind]. cbn [retry_context].
  by rewrite !Hattempt by lia.
Qed.

Lemma retry_context_effect (P : world -> world -> Prop) remaining k body w :
  (forall w, P w w) ->
  (forall w1 w2 w3, P w1 w2 -> P w2 w3 -> P w1 w3) ->
  (forall j w0, P w0 (body j w0).1) ->
  P w (retry_context remaining k body w).1.
Proof.
  intros Hrefl Htrans Hbody. revert k w.
  induction remaining as [|remaining IH]; intros k w; cbn [retry_context];
    pose proof (Hbody k w) as Hstep; destruct (body k w) as [w1 [[]|e]]; cbn in *; try done;
    destruct e; try done.
  eapply Htrans; [exact Hstep|apply IH].
Qed.

(** X19: whatever its outcome, a run deletes nothing: every local file,
    every blob and every group entry present before is present after. *)
Theorem pull_deletes_nothing integration envs w :
  let w' := (action_pull_observations integration envs w).1 in
  (forall path, is_Some (tmp_files w !! path) -> is_Some (tmp_files w' !! path)) /\
  (forall key, is_Some (blobs w !! key) -> is_Some (blobs w' !! key)) /\
  (forall group_name value,
     value ∈ groups w !!! group_name -> value ∈ groups w' !!! group_name).
Proof.
  intros w'.
  assert (w' = (retry_context 2 0 (fun k => pull_attempt integration (envs k)) w).1) as ->.
  { unfold w', action_pull_observations. cbv [mbind action_bind mret action_ret].
    by destruct (retry_context _ _ _ _) as [w1 [[]|e]]. }
  apply (retry_context_effect (fun w w' =>
    (forall path, is_Some (tmp_files w !! path) -> is_Some (tmp_files w' !! path)) /\
    (forall key, is_Some (blobs w !! key) -> is_Some (blobs w' !! key)) /\
    (forall group_name value,
       value ∈ groups w !!! group_name -> value ∈ groups w' !!! group_name))).
  - done.
  - intros w1 w2 w3 (H1 & H2 & H3) (H1' & H2' & H3'). naive_solver.
  - intros j w0. destruct (pull_attempt_effect integration (envs j) w0) as (Ht & Hb & Hg).
    split; [done|]. split; [done|]. intros group_name value Hin.
    destruct (pull_attempt integration (envs j) w0).2; rewrite Hg; [|done].
    destruct (decide (group_name = PENDING_FILES)) as [->|Hne].
    + rewrite lookup_total_insert_eq. set_solver.
    + by rewrite lookup_total_insert_ne.
Qed.



Lemma retry_context_success_groups remaining k body w w' :
  retry_context remaining k body w = (w', Ok ()) ->
  (forall j w0, match (body j w0).2 with
                | Ok _ => True
                | Raise _ => groups (body j w0).1 = groups w0
                end) ->
  exists j w0, (k <= j <= k + remaining)%nat /\ groups w0 = groups w /\
               body j w0 = (w', Ok ()).
Proof.
  intros Hrun Hbody. revert k w Hrun.
  induction remaining as [|remaining IH]; intros k w; cbn [retry_context];
    pose proof (Hbody k w) as Hstep; destruct (body k w) as [w1 [[]|e1]] eqn:Hb; cbn in *.
  - intros [= <-]. exists k, w. split; [lia|done].
  - by destruct e1.
  - intros [= <-]. exists k, w. split; [lia|done].
  - destruct e1; try done. intros Hrec.
    apply IH in Hrec as (j & w0 & Hj & Hg & Hbj). exists j, w0.
    split; [lia|]. split; [congruence|done].
Qed.

(** X21: a run that returns registers exactly one file: the pending
    group gains the data-points file name of the successful attempt and
    no group changes otherwise. *)
Theorem pull_success_registers_one_file integration envs w w' r :
  action_pull_observations integration envs w = (w', Ok r) ->
  exists k, (k < 3)%nat /\
    groups w'
    = <[PENDING_FILES :=
          groups w !!! PENDING_FILES
          ∪ {[ now (envs k) +:+ "_" +:+ id integration +:+ "_data_points.xml" ]}]> (groups w).
Proof.
  unfold action_pull_observations. cbv [mbind action_bind mret action_ret].
  destruct (retry_context 2 0 _ w) as [w1 [[]|e1]] eqn:Hrun; [|done].
  intros [= <- _].
  apply retry_context_success_groups in Hrun as (k & w0 & Hk & Hg & Hbody).
  - exists k. split; [lia|].
    destruct (pull_attempt_effect integration (envs k) w0) as (_ & _ & Hgroups).
    rewrite Hbody in Hgroups. cbn in Hgroups. by rewrite Hgroups, Hg.
  - intros j w0. destruct (pull_attempt_effect integration (envs j) w0) as (_ & _ & Hg).
    by destruct (pull_attempt integration (envs j) w0).2.
Qed.

Lemma pull_attempt_outcome integration env w :
  (pull_attempt integration env w).2 = attempt_outcome integration env.
Proof.
  unfold pull_attempt, attempt_outcome.
  destruct (get_auth_config integration) as [auth_config|e]; [|done].
  destruct (get_pull_config integration) as [config|e]; [|done].
  destruct (transmissions_fetch env) as [transmissions_raw_xml|e]; [|done].
  cbv [mbind action_bind lift write_file upload_file group_add tmp_files blobs groups
       result_bind].
  rewrite !lookup_insert_eq.
  destruct (data_points_fetch env) as [data_points_raw_xml|e]; [|done].
  by rewrite !lookup_insert_eq.
Qed.

(** ** Batches and their delivery *)

Lemma concat_slices {A} (l : list A) (size m : nat) :
  concat ((fun k => take size (drop (k * size) l)) <$> seq 0 m) = take (m * size) l.
Proof.
  induction m as [|m IH]; [done|].
  rewrite seq_S, fmap_app, concat_app, IH. cbn [fmap list_fmap concat].
  rewrite app_nil_r, take_take_drop. f_equal. lia.
Qed.

Lemma batch_count_bounds (len n : Z) :
  0 <= len -> 0 < n ->
  let m := (len + n - 1) / n in
  0 <= m /\ len <= m * n /\ (m - 1) * n < len.
Proof.
  intros Hlen Hn m.
  pose proof (Z.div_mod (len + n - 1) n ltac:(lia)) as Hdm.
  pose proof (Z.mod_pos_bound (len + n - 1) n Hn) as Hmod.
  fold m in Hdm. split; [apply Z.div_pos; lia|]. nia.
Qed.

Lemma generate_batches_pos {A} (iterable : list A) (n : Z) :
  0 < n ->
  generate_batches iterable n =
    Ok ((fun k => take (Z.to_nat n) (drop (k * Z.to_nat n) iterable))
          <$> seq 0 (Z.to_nat ((Z.of_nat (length iterable) + n - 1) / n))).
Proof.
  intros Hn. unfold generate_batches, range_from_zero.
  rewrite !bool_decide_eq_false_2 by lia.
  f_equal. rewrite <- list_fmap_compose. apply list_fmap_ext. intros _ k _.
  cbn. unfold slice. do 2 f_equal. lia.
Qed.

(** X23: for a positive batch size the batches are consecutive pieces of
    the list: put end to end they give the list back, none is empty,
    none exceeds the size, and all but the last have exactly the
    size. *)
Theorem generate_batches_partition {A} (iterable : list A) (n : Z) :
  0 < n ->
  exists batches,
    generate_batches iterable n = Ok batches /\
    concat batches = iterable /\
    Forall (fun batch => (0 < length batch <= Z.to_nat n)%nat) batches /\
    forall i batch,
      batches !! i = Some batch -> (S i < length batches)%nat ->
      length batch = Z.to_nat n.
Proof.
  intros Hn. eexists. split; [by apply generate_batches_pos|].
  pose proof (batch_count_bounds (Z.of_nat (length iterable)) n ltac:(lia) Hn)
    as (Hm0 & Hcover & Hlast).
  set (m := (Z.of_nat (length iterable) + n - 1) / n) in *.
  split; [|split].
  - rewrite concat_slices. apply take_ge. nia.
  - apply Forall_forall. intros batch Hin.
    apply list_elem_of_fmap in Hin as (k & -> & Hk).
    apply elem_of_seq in Hk. rewrite length_take, length_drop. nia.
  - intros i batch Hi Hnotlast. rewrite length_fmap, length_seq in Hnotlast.
    rewrite list_lookup_fmap in Hi. apply fmap_Some in Hi as (k & Hk & ->).
    apply lookup_seq in Hk as [-> _]. rewrite length_take, length_drop. nia.
Qed.



Lemma send_batches_all_accepted responses batches g :
  (forall k, responses k = Ok ()) ->
  send_batches responses batches g
  = ({| delivered := (delivered g ++ batches)%list;
        calls := (calls g + length batches)%nat |}, Ok ()).
Proof.
  intros Hok. revert g. induction batches as [|batch rest IH]; intros g.
  - cbn. rewrite app_nil_r, Nat.add_0_r. by destruct g.
  - cbn [send_batches send_with_retry]. unfold send_observations_to_gundi.
    rewrite Hok, IH. cbn. rewrite <- app_assoc. do 3 f_equal. lia.
Qed.

(** X25: with a positive batch size, every transform succeeding and every
    call accepted, the loop delivers the observations of all devices,
    each once, in device order and record order, in one call per batch,
    and counts them all. *)
Theorem process_devices_delivers_all responses n integration_id gmt_offsets
    data_points_per_device per_device observations_processed g :
  0 < n ->
  (forall k, responses k = Ok ()) ->
  transformed_per_device integration_id gmt_offsets data_points_per_device per_device ->
  exists new logs,
    process_devices responses n integration_id gmt_offsets data_points_per_device
      observations_processed g
    = ({| delivered := (delivered g ++ new)%list; calls := (calls g + length new)%nat |},
       (logs, Ok (observations_processed + Z.of_nat (length (concat per_device))))) /\
    concat new = concat per_device.
Proof.
  intros Hn Hok Hall. revert observations_processed g.
  induction Hall as [|[serial_num data_points] obs items per_device Hobs Hall IH];
    intros observations_processed g.
  - exists [], []. cbn. rewrite app_nil_r, Nat.add_0_r, Z.add_0_r. by destruct g.
  - cbn [process_devices]. cbn [fst snd] in Hobs.
    destruct (filter_and_transform serial_num data_points _ _ _) as [logs r].
    cbn in Hobs. subst r. destruct obs as [|o obs].
    + destruct (IH observations_processed g) as (new & logs' & -> & Hnew).
      exists new, (logs ++ logs')%list. by split.
    + rewrite generate_batches_pos by done.
      set (batches := (fun k => take (Z.to_nat n) (drop (k * Z.to_nat n) (o :: obs)))
                        <$> seq 0 _).
      assert (concat batches = o :: obs) as Hbatches.
      { unfold batches. rewrite concat_slices. apply take_ge.
        pose proof (batch_count_bounds (Z.of_nat (length (o :: obs))) n ltac:(lia) Hn)
          as (Hm0 & Hcover & _).
        nia. }
      rewrite send_batches_all_accepted by done.
      edestruct IH as (new & logs' & -> & Hnew).
      exists (batches ++ new)%list, (logs ++ logs')%list. cbn [delivered calls].
      split.
      * f_equal; [f_equal; [by rewrite app_assoc|rewrite length_app; lia]|].
        do 2 f_equal. cbn [concat]. rewrite length_app. lia.
      * rewrite concat_app, Hbatches, Hnew. done.
Qed.

(** X26: with a negative batch size no batch is formed: nothing is sent,
    and the records are counted as processed all the same. *)
Theorem process_devices_negative_batch_size responses n integration_id gmt_offsets
    data_points_per_device per_device observations_processed g :
  n < 0 ->
  transformed_per_device integration_id gmt_offsets data_points_per_device per_device ->
  exists logs,
    process_devices responses n integration_id gmt_offsets data_points_per_device
      observations_processed g
    = (g, (logs, Ok (observations_processed + Z.of_nat (length (concat per_device))))).
Proof.
  intros Hn Hall. revert observations_processed g.
  induction Hall as [|[serial_num data_points] obs items per_device Hobs Hall IH];
    intros observations_processed g.
  - exists []. cbn. by rewrite Z.add_0_r.
  - cbn [process_devices]. cbn [fst snd] in Hobs.
    destruct (filter_and_transform serial_num data_points _ _ _) as [logs r].
    cbn in Hobs. subst r. destruct obs as [|o obs].
    + destruct (IH observations_processed g) as (logs' & ->).
      by exists (logs ++ logs')%list.
    + unfold generate_batches, range_from_zero.
      rewrite bool_decide_eq_false_2, bool_decide_eq_true_2 by lia.
      cbn [fmap list_fmap send_batches].
      edestruct IH as (logs' & ->). exists (logs ++ logs')%list.
      do 3 f_equal. cbn [concat]. rewrite length_app. cbn [length]. lia.
Qed.

(** X27: with a batch size of zero, the first device that has
    observations makes the loop raise [ValueError] before anything is
    sent. *)
Theorem process_devices_zero_batch_size responses integration_id gmt_offsets
    serial_num data_points rest observations_processed g logs o obs :
  filter_and_transform serial_num data_points (get_offset gmt_offsets serial_num)
    integration_id "pull_observations" = (logs, Ok (o :: obs)) ->
  process_devices responses 0 integration_id gmt_offsets
    ((serial_num, data_points) :: rest) observations_processed g
  = (g, (logs, Raise ValueError)).
Proof. intros Hobs. cbn [process_devices]. by rewrite Hobs. Qed.

(** ** The statements above on the sample data *)

Lemma closest_transmission_first_in_input_order_witness :
  exists before after,
    two_of_one_date = (before ++ (86400000000, "x") :: after)%list /\
    Forall (fun t => fst t <> fst (86400000000, "x")) before.
Proof.
  apply (closest_transmission_first_in_input_order fst two_of_one_date 172800000000).
  by vm_compute.
Defined.

Lemma closest_transmission_after_all_witness :
  closest_transmission fst midnight_and_ten 172800000000 = Ok (36000000000, "b") /\
  fst (36000000000, "b") = 36000000000.
Proof.
  split; [by vm_compute|].
  apply (closest_transmission_after_all fst midnight_and_ten 172800000000 36000000000
           (36000000000, "b")); [|lia|by vm_compute].
  split; [right; left|]. intros d Hd. cbn in Hd.
  repeat (apply elem_of_cons in Hd as [->|Hd]); [lia..|inversion Hd].
Defined.

Lemma closest_transmission_before_all_witness :
  closest_transmission fst midnight_and_ten (-3600000000) = Ok (36000000000, "b") /\
  fst (36000000000, "b")
  = if bool_decide (days (0 - -3600000000) < days (36000000000 - -3600000000))
    then 0 else 36000000000.
Proof.
  split; [by vm_compute|].
  apply (closest_transmission_before_all fst midnight_and_ten (-3600000000) 0 36000000000
           (36000000000, "b")); [| |lia|by vm_compute].
  - split; [left|]. intros d Hd. cbn in Hd.
    repeat (apply elem_of_cons in Hd as [->|Hd]); [lia..|inversion Hd].
  - split; [right; left|]. intros d Hd. cbn in Hd.
    repeat (apply elem_of_cons in Hd as [->|Hd]); [lia..|inversion Hd].
Defined.

Lemma closest_transmission_prefers_later_witness :
  closest_transmission fst midnight_and_next_midnight one_o_clock = Ok (86400000000, "b") /\
  fst (86400000000, "b") = 86400000000.
Proof.
  split; [by vm_compute|].
  apply (closest_transmission_prefers_later fst midnight_and_next_midnight one_o_clock
           86400000000 0 (86400000000, "b")); [| | | |by vm_compute].
  - split; [right; left|]. split; [unfold one_o_clock; lia|].
    intros d Hd Hge. cbn in Hd. unfold one_o_clock in Hge.
    repeat (apply elem_of_cons in Hd as [->|Hd]); [lia..|inversion Hd].
  - unfold one_o_clock, microseconds_per_day. lia.
  - left.
  - unfold one_o_clock. lia.
Defined.

Lemma closest_transmission_date_permutation_witness :
  closest_transmission fst two_of_one_date 172800000000 = Ok (86400000000, "x") /\
  closest_transmission fst (reverse two_of_one_date) 172800000000 = Ok (86400000000, "b") /\
  fst (86400000000, "x") = fst (86400000000, "b").
Proof.
  split; [by vm_compute|]. split; [by vm_compute|].
  apply (closest_transmission_date_permutation fst two_of_one_date
           (reverse two_of_one_date) 172800000000 (86400000000, "x") (86400000000, "b")).
  - by rewrite reverse_Permutation.
  - by vm_compute.
  - by vm_compute.
Defined.


Lemma DataResponse_validate_sound_witness :
  exists d,
    XDict located_row = XDict d /\
    get_field "AtsSerialNum" "ats_serial_num" d
      = Present (XStr (ats_serial_num located_record)) /\
    (forall x, longitude located_record = Some x ->
       PrimFloat.leb (-180)%float x && PrimFloat.leb x 360%float = true) /\
    (forall y, latitude located_record = Some y ->
       PrimFloat.leb (-90)%float y && PrimFloat.leb y 90%float = true).
Proof.
  apply (DataResponse_validate_sound sample_float_of_str sample_bool_of_str
           sample_datetime_of_str (XDict located_row) located_record).
  reflexivity.
Defined.

Lemma readers_let_AttributeError_through_witness :
  get_data_endpoint_response edge_xmltodict_parse sample_float_of_str
    sample_bool_of_str sample_datetime_of_str "7f3a" "ranger" (Success empty_data_set_xml)
    = Raise AttributeError /\
  get_transmissions_endpoint_response edge_xmltodict_parse sample_float_of_str
    sample_int_of_str sample_bool_of_str sample_datetime_of_str "7f3a" "ranger"
    (Success empty_data_set_xml) = Raise AttributeError.
Proof.
  apply (readers_let_AttributeError_through edge_xmltodict_parse sample_float_of_str
           sample_int_of_str sample_bool_of_str sample_datetime_of_str "7f3a" "ranger"
           empty_data_set_xml [("DataSet", XNone)] XNone); [reflexivity..|].
  by left.
Defined.

Lemma single_row_is_dropped_witness :
  get_data_endpoint_response edge_xmltodict_parse sample_float_of_str
    sample_bool_of_str sample_datetime_of_str "7f3a" "ranger" (Success single_row_xml)
    = Ok ∅ /\
  get_transmissions_endpoint_response edge_xmltodict_parse sample_float_of_str
    sample_int_of_str sample_bool_of_str sample_datetime_of_str "7f3a" "ranger"
    (Success single_row_xml) = Ok (RowList []).
Proof.
  eapply (single_row_is_dropped edge_xmltodict_parse sample_float_of_str
           sample_int_of_str sample_bool_of_str sample_datetime_of_str "7f3a" "ranger"
           single_row_xml _ [("Table", XDict complete_row)] complete_row); reflexivity.
Defined.

Lemma transmissions_response_rows_witness :
  match get_transmissions_endpoint_response sample_xmltodict_parse sample_float_of_str
          sample_int_of_str sample_bool_of_str sample_datetime_of_str "7f3a" "ranger"
          (Success two_rows_xml) with
  | Ok v =>
      Forall2 (fun row record =>
                 TransmissionsResponse_validate sample_float_of_str sample_int_of_str
                   sample_bool_of_str sample_datetime_of_str row = Some record)
              [XDict complete_row; XDict row_without_identifier] (records v)
  | Raise e =>
      raises_bad_xml (Raise e : result transmissions_value) = true /\
      Exists (fun row =>
                TransmissionsResponse_validate sample_float_of_str sample_int_of_str
                  sample_bool_of_str sample_datetime_of_str row = None)
             [XDict complete_row; XDict row_without_identifier]
  end.
Proof.
  eapply (transmissions_response_rows sample_xmltodict_parse sample_float_of_str
           sample_int_of_str sample_bool_of_str sample_datetime_of_str "7f3a" "ranger"
           two_rows_xml _
           [("Table", XList [XDict complete_row; XDict row_without_identifier])]);
    reflexivity.
Defined.

Lemma filter_and_transform_records_witness :
  exists tz,
    Forall2 (fun vehicle o =>
               source o = ats_serial_num vehicle /\
               source_name o = ats_serial_num vehicle /\
               type o = "tracking-device" /\
               recorded_at o = replace_tzinfo (date_year_and_julian vehicle) tz /\
               location_of o = {| lat := latitude vehicle; lon := longitude vehicle |} /\
               forall key value, (key, value) ∈ additional o -> key ∉ main_data)
            [sample_vehicle]
            [observation_in {| utcoffset := hours 3 |} sample_vehicle].
Proof.
  apply (filter_and_transform_records "012345" [sample_vehicle] (Some 3) "7f3a"
           "pull_observations" []).
  reflexivity.
Defined.

Lemma pull_makes_at_most_three_attempts_witness :
  action_pull_observations sample_integration sample_envs empty_world
  = action_pull_observations sample_integration sample_envs_then_silence empty_world.
Proof.
  apply (pull_makes_at_most_three_attempts sample_integration sample_envs
           sample_envs_then_silence empty_world).
  intros k Hk. destruct k as [|[|[|k]]]; [reflexivity..|lia].
Defined.

Lemma pull_does_not_retry_other_errors_witness :
  action_pull_observations unconfigured_integration sample_envs empty_world
  = (empty_world,
     Raise (ConfigurationNotFound (missing_settings_message unconfigured_integration))).
Proof.
  apply (pull_does_not_retry_other_errors unconfigured_integration sample_envs empty_world).
  - reflexivity.
  - discriminate.
Defined.

Lemma pull_gives_up_after_three_failures_witness :
  action_pull_observations sample_integration unreachable_envs empty_world
  = (empty_world, Raise HTTPError).
Proof.
  apply (pull_gives_up_after_three_failures sample_integration unreachable_envs empty_world
           {| username := "ranger"; password := "secret" |}
           {| data_endpoint := "https://ats.example/data";
              transmissions_endpoint := "https://ats.example/transmissions" |});
    reflexivity.
Defined.


Lemma pull_success_registers_one_file_witness :
  exists k, (k < 3)%nat /\
    groups (action_pull_observations sample_integration reachable_envs empty_world).1
    = <[PENDING_FILES :=
          groups empty_world !!! PENDING_FILES
          ∪ {[ now (reachable_envs k) +:+ "_" +:+ id sample_integration
               +:+ "_data_points.xml" ]}]> (groups empty_world).
Proof.
  apply (pull_success_registers_one_file sample_integration reachable_envs empty_world
           (action_pull_observations sample_integration reachable_envs empty_world).1
           {| observations_extracted := 0 |}).
  pose proof (pull_attempt_outcome sample_integration (reachable_envs 0) empty_world)
    as Hfirst.
  unfold action_pull_observations. cbv [mbind action_bind mret action_ret].
  cbn [retry_context].
  destruct (pull_attempt sample_integration (reachable_envs 0) empty_world)
    as [w1 [[]|e]]; [done|]. cbn in Hfirst. discriminate.
Defined.

Lemma generate_batches_partition_witness :
  exists batches,
    generate_batches [1; 2; 3; 4; 5] 2 = Ok batches /\
    concat batches = [1; 2; 3; 4; 5] /\
    Forall (fun batch => (0 < length batch <= Z.to_nat 2)%nat) batches /\
    forall i batch,
      batches !! i = Some batch -> (S i < length batches)%nat ->
      length batch = Z.to_nat 2.
Proof. apply (generate_batches_partition [1; 2; 3; 4; 5] 2). lia. Defined.

Lemma sample_transformed_per_device :
  transformed_per_device "7f3a" ∅ one_device
    [observation_in utc <$> [sample_vehicle; sample_vehicle; sample_vehicle]].
Proof. repeat constructor. Qed.

Lemma process_devices_delivers_all_witness :
  exists new logs,
    process_devices always_accepted 2 "7f3a" ∅ one_device 0 nothing_delivered
    = ({| delivered := (delivered nothing_delivered ++ new)%list;
          calls := (calls nothing_delivered + length new)%nat |},
       (logs, Ok (0 + Z.of_nat (length (concat
                    [observation_in utc <$> [sample_vehicle; sample_vehicle;
                                                sample_vehicle]]))))) /\
    concat new
    = concat [observation_in utc <$> [sample_vehicle; sample_vehicle; sample_vehicle]].
Proof.
  apply (process_devices_delivers_all always_accepted 2 "7f3a" ∅ one_device
           [observation_in utc <$> [sample_vehicle; sample_vehicle; sample_vehicle]]
           0 nothing_delivered).
  - lia.
  - reflexivity.
  - exact sample_transformed_per_device.
Defined.

Lemma process_devices_negative_batch_size_witness :
  exists logs,
    process_devices always_accepted (-1) "7f3a" ∅ one_device 0 nothing_delivered
    = (nothing_delivered,
       (logs, Ok (0 + Z.of_nat (length (concat
                    [observation_in utc <$> [sample_vehicle; sample_vehicle;
                                                sample_vehicle]]))))).
Proof.
  apply (process_devices_negative_batch_size always_accepted (-1) "7f3a" ∅ one_device
           [observation_in utc <$> [sample_vehicle; sample_vehicle; sample_vehicle]]
           0 nothing_delivered).
  - lia.
  - exact sample_transformed_per_device.
Defined.

Lemma process_devices_zero_batch_size_witness :
  process_devices always_accepted 0 "7f3a" ∅ one_device 0 nothing_delivered
  = (nothing_delivered, ([], Raise ValueError)).
Proof.
  apply (process_devices_zero_batch_size always_accepted "7f3a" ∅ "012345"
           [sample_vehicle; sample_vehicle; sample_vehicle] [] 0 nothing_delivered []
           (observation_in utc sample_vehicle)
           (observation_in utc <$> [sample_vehicle; sample_vehicle])).
  reflexivity.
Defined.
